(** * thonny_openai_gpt: the release script and the plug-in entry point

    A shallow embedding of [publish_to_pypi.py] (the version bump and
    publish workflow) and of [__init__.py] (the plug-in entry point
    [load]), with the properties the specification states about them.

    Modelling conventions.
    - A Python [str] is a [string] of bytes (its UTF-8 encoding).  All the
      patterns of the script are ASCII, so searching bytes and searching
      code points agree.  Digits and white space outside ASCII are not
      modelled: [int] and the digit class of the metadata pattern know
      the ASCII digits only, and the properties of [int] are stated for
      ASCII text.
    - A Python [int] is a [Z].  [int] and [str] raise [ValueError] for a
      numeral of more than 4300 digits, the limit of the interpreter
      ([sys.get_int_max_str_digits()]) as CPython 3.11 and later set it
      by default.
    - Code that can raise returns a [result]; code with effects is a
      function on an explicit [world] (files, typed input, printed output,
      external commands).
    - The file system is ideal: whatever exists at the path of a file is
      a file of UTF-8 text that can be read and written, and a directory
      entry can be removed; permissions, decoding errors and links are
      left out.  Properties that say which exception a read raises are
      therefore stated for missing files only.  Files are opened in text
      mode: the store holds for each file the text that reading it gives,
      in which every line ends with a line feed, and a written carriage
      return is read back as a line feed.
    - In the script, printing a line succeeds.  In the plug-in module,
      whose handlers are the subject, formatting an exception and writing
      a line can raise.
    - A call of the feature module, or of an external command, ends: it
      returns or raises. *)

From Stdlib Require Import String Ascii ZArith List Bool Lia.
From Stdlib Require Import Decimal DecimalString DecimalFacts DecimalPos DecimalN DecimalZ.
From stdpp Require Import base option list gmap strings.
From Equations Require Import Equations.
Import ListNotations.

Local Open Scope Z_scope.

#[local] Arguments String.append : simpl nomatch.

(** ** Python values shared by both files *)

(** The exception classes that occur.  [SystemExit], [KeyboardInterrupt]
    and [GeneratorExit] derive from [BaseException] only; every other
    built-in class, and the classes of [subprocess], derive from
    [Exception]. *)
Inductive exn_class : Type :=
| ValueError
| EOFError
| FileNotFoundError
| IsADirectoryError
| CalledProcessError
| OtherException (name : string)
| SystemExit
| KeyboardInterrupt
| GeneratorExit
| OtherBaseException (name : string).

(** [issubclass(c, Exception)]. *)
Definition is_Exception (c : exn_class) : bool :=
  match c with
  | SystemExit | KeyboardInterrupt | GeneratorExit | OtherBaseException _ => false
  | _ => true
  end.

(** ** Strings *)

Module Str.

Definition empty : string := EmptyString.
Definition dquote : ascii := ascii_of_nat 34.
Definition dot : ascii := ascii_of_nat 46.
Definition underscore : ascii := ascii_of_nat 95.

Definition of_char (c : ascii) : string := String c EmptyString.

Definition is_empty (s : string) : bool :=
  match s with EmptyString => true | String _ _ => false end.

(** Python truthiness of a [str]. *)
Definition truthy (s : string) : bool := negb (is_empty s).

Fixpoint all_chars (f : ascii -> bool) (s : string) : bool :=
  match s with
  | EmptyString => true
  | String c t => f c && all_chars f t
  end.

Fixpoint contains (c : ascii) (s : string) : bool :=
  match s with
  | EmptyString => false
  | String d t => Ascii.eqb d c || contains c t
  end.

(** [s.split(sep)] for a one-character separator: every separator cuts,
    empty components are kept, and the result is never empty. *)
Fixpoint split (sep : ascii) (s : string) : list string :=
  match s with
  | EmptyString => [EmptyString]
  | String c t =>
      if Ascii.eqb c sep then EmptyString :: split sep t
      else match split sep t with
           | h :: r => String c h :: r
           | [] => [String c EmptyString]
           end
  end.

(** [sep.join(parts)]. *)
Fixpoint join (sep : ascii) (parts : list string) : string :=
  match parts with
  | [] => EmptyString
  | [p] => p
  | p :: rest => String.append p (String sep (join sep rest))
  end.

(** [s.startswith(p)], returning what follows the prefix. *)
Fixpoint strip_prefix (p s : string) : option string :=
  match p with
  | EmptyString => Some s
  | String a p' =>
      match s with
      | EmptyString => None
      | String b s' => if Ascii.eqb a b then strip_prefix p' s' else None
      end
  end.

(** [s.endswith(p)]. *)
Fixpoint ends_with (p s : string) : bool :=
  match strip_prefix p s with
  | Some EmptyString => true
  | _ => match s with
         | EmptyString => false
         | String _ t => ends_with p t
         end
  end.

(** The longest prefix whose characters satisfy [f], and the rest. *)
Fixpoint span (f : ascii -> bool) (s : string) : string * string :=
  match s with
  | EmptyString => (EmptyString, EmptyString)
  | String c t =>
      if f c then let '(a, b) := span f t in (String c a, b)
      else (EmptyString, s)
  end.

Definition cr : ascii := ascii_of_nat 13.
Definition lf : ascii := ascii_of_nat 10.

(** Reading in text mode with universal newlines: a carriage return
    followed by a line feed, and a carriage return alone, become a line
    feed. *)
Fixpoint universal_newlines (s : string) : string :=
  match s with
  | EmptyString => EmptyString
  | String c t =>
      if Ascii.eqb c cr then
        String lf match t with
                  | String d t' => if Ascii.eqb d lf then universal_newlines t'
                                   else universal_newlines t
                  | EmptyString => EmptyString
                  end
      else String c (universal_newlines t)
  end.

(** A character of ASCII: a byte below 128. *)
Definition is_ascii (c : ascii) : bool := Nat.ltb (nat_of_ascii c) 128.

(** [c * n], a character repeated. *)
Fixpoint repeat (c : ascii) (n : nat) : string :=
  match n with
  | O => EmptyString
  | S m => String c (repeat c m)
  end.

(** [s.lower()] on ASCII letters; other bytes are kept. *)
Definition lower_char (c : ascii) : ascii :=
  let n := nat_of_ascii c in
  if (Nat.leb 65 n && Nat.leb n 90)%bool then ascii_of_nat (n + 32) else c.

Fixpoint lower (s : string) : string :=
  match s with
  | EmptyString => EmptyString
  | String c t => String (lower_char c) (lower t)
  end.

End Str.

(** ** Integers and their decimal text *)

Module PyInt.

Definition is_digit (c : ascii) : bool :=
  let n := nat_of_ascii c in (Nat.leb 48 n && Nat.leb n 57)%bool.

Definition digit_value (c : ascii) : Z := Z.of_nat (nat_of_ascii c) - 48.

(** White space skipped by [int()] around the numeral of an ASCII
    string: tab, line feed, vertical tab, form feed, carriage return and
    space. *)
Definition is_space (c : ascii) : bool :=
  let n := nat_of_ascii c in
  ((Nat.leb 9 n && Nat.leb n 13) || Nat.eqb n 32)%bool.

Fixpoint lstrip (s : string) : string :=
  match s with
  | EmptyString => EmptyString
  | String c t => if is_space c then lstrip t else s
  end.

Fixpoint rstrip (s : string) : string :=
  match s with
  | EmptyString => EmptyString
  | String c t =>
      match rstrip t with
      | EmptyString => if is_space c then EmptyString else String c EmptyString
      | t' => String c t'
      end
  end.

(** Digits, with single underscores allowed between two digits.
    [prev] tells whether the previous character was a digit. *)
Fixpoint parse_digits (s : string) (acc : Z) (prev : bool) : option Z :=
  match s with
  | EmptyString => if prev then Some acc else None
  | String c t =>
      if is_digit c then parse_digits t (10 * acc + digit_value c) true
      else if (Ascii.eqb c Str.underscore && prev)%bool then parse_digits t acc false
      else None
  end.

(** The syntax of [int(s)], base ten: surrounding white space, an
    optional sign, then digits. *)
Definition numeral (s : string) : option Z :=
  match rstrip (lstrip s) with
  | String c t =>
      if Ascii.eqb c (ascii_of_nat 43) then parse_digits t 0 false
      else if Ascii.eqb c (ascii_of_nat 45) then Z.opp <$> parse_digits t 0 false
      else parse_digits (String c t) 0 false
  | EmptyString => None
  end.

(** The limit on the digits of a numeral read by [int()] or written by
    [str()], [sys.get_int_max_str_digits()]: 4300 in CPython 3.11 and
    later unless the interpreter is configured otherwise.  Digits are
    counted; the sign, underscores and white space are not. *)
Definition max_str_digits : nat := 4300.

Fixpoint count_digits (s : string) : nat :=
  match s with
  | EmptyString => 0
  | String c t => if is_digit c then S (count_digits t) else count_digits t
  end.

Definition within_limit (s : string) : bool :=
  Nat.leb (count_digits s) max_str_digits.

(** [int(s)]; [None] stands for [ValueError], raised for a text that
    is not a numeral and for a numeral over the limit. *)
Definition int (s : string) : option Z :=
  if within_limit s then numeral s else None.

(** The decimal numeral of a number, without leading zeros, [-] for
    negatives. *)
Definition decimal (n : Z) : string := NilZero.string_of_int (Z.to_int n).

(** [str(n)]; [None] stands for [ValueError], raised when the numeral
    is over the limit. *)
Definition str (n : Z) : option string :=
  if within_limit (decimal n) then Some (decimal n) else None.

(** The value of a string of digits, read as the specification reads a
    version component. *)
Fixpoint decimal_value_from (acc : Z) (s : string) : Z :=
  match s with
  | EmptyString => acc
  | String c t => decimal_value_from (10 * acc + digit_value c) t
  end.

Definition decimal_value (s : string) : Z := decimal_value_from 0 s.

(** A decimal non-negative integer: one or more digits. *)
Definition is_decimal (s : string) : bool :=
  (Str.truthy s && Str.all_chars is_digit s)%bool.

End PyInt.

(** ** publish_to_pypi.py *)

Module Publish.

(** The outcome of a call: a value or an exception. *)
Inductive result (A : Type) : Type :=
| Ok (a : A)
| Raise (e : exn_class).
Arguments Ok {A} a.
Arguments Raise {A} e.

(** *** increment_version *)

(** [parts[-1] = x] on a list. *)
Definition set_last (parts : list string) (x : string) : list string :=
  removelast parts ++ [x].

Definition increment_version (version : option string) : result string :=
  match version with
  | None => Ok "0.1.0"%string
  | Some v =>
      if negb (Str.truthy v) then Ok "0.1.0"%string
      else
        let parts := Str.split Str.dot v in
        if (3 <=? length parts)%nat then
          match PyInt.int (List.last parts Str.empty) with
          | Some n =>
              match PyInt.str (n + 1) with
              | Some text => Ok (Str.join Str.dot (set_last parts text))
              | None => Raise ValueError
              end
          | None => Raise ValueError
          end
        else Ok (Str.join Str.dot (parts ++ ["1"%string]))
  end.

(** *** Regular expressions of the script *)

(** The literal part of the [setup.py] pattern, [version=] and a double
    quote, and that of the [pyproject.toml] pattern, [version = ] and a
    double quote. *)
Definition setup_lit : string := String.append "version=" (Str.of_char Str.dquote).
Definition pyproject_lit : string := String.append "version = " (Str.of_char Str.dquote).

Definition not_dquote (c : ascii) : bool := negb (Ascii.eqb c Str.dquote).

(** One attempt, at the start of [s], of the pattern made of [lit], one
    or more characters other than the double quote, and a double quote:
    the captured group and the text after the match.  The class is
    greedy, and giving characters back cannot help, since the next
    character must be the quote the class excludes. *)
Definition match_quoted (lit s : string) : option (string * string) :=
  match Str.strip_prefix lit s with
  | None => None
  | Some r =>
      match Str.span not_dquote r with
      | (String c g, String _ rest) => Some (String c g, rest)
      | _ => None
      end
  end.

(** [re.search] with that pattern: group 1 of the leftmost match. *)
Fixpoint search_quoted (lit s : string) : option string :=
  match match_quoted lit s with
  | Some (g, _) => Some g
  | None =>
      match s with
      | EmptyString => None
      | String _ t => search_quoted lit t
      end
  end.

(** [re.search(r'Version: ([\d\.]+)', s)], group 1 of the leftmost
    match. *)
Definition version_char (c : ascii) : bool :=
  (PyInt.is_digit c || Ascii.eqb c Str.dot)%bool.

Definition match_version (s : string) : option string :=
  match Str.strip_prefix "Version: " s with
  | None => None
  | Some r =>
      match fst (Str.span version_char r) with
      | EmptyString => None
      | g => Some g
      end
  end.

Fixpoint search_version (s : string) : option string :=
  match match_version s with
  | Some g => Some g
  | None =>
      match s with
      | EmptyString => None
      | String _ t => search_version t
      end
  end.

Lemma strip_prefix_length p : forall s r,
  Str.strip_prefix p s = Some r ->
  String.length s = (String.length p + String.length r)%nat.
Proof.
  induction p as [|a p IH]; intros s r; simpl.
  - intros [= ->]. reflexivity.
  - destruct s as [|b s']; [discriminate|].
    destruct (Ascii.eqb a b); [|discriminate].
    intros H. apply IH in H. simpl. rewrite H. reflexivity.
Qed.

Lemma span_length f : forall s a b,
  Str.span f s = (a, b) ->
  String.length s = (String.length a + String.length b)%nat.
Proof.
  induction s as [|c t IH]; intros a b; simpl.
  - intros [= <- <-]. reflexivity.
  - destruct (f c).
    + destruct (Str.span f t) as [a' b'] eqn:E. intros [= <- <-].
      simpl. rewrite (IH a' b' eq_refl). reflexivity.
    + intros [= <- <-]. reflexivity.
Qed.

Lemma match_quoted_shorter lit s g r :
  match_quoted lit s = Some (g, r) -> (String.length r < String.length s)%nat.
Proof.
  unfold match_quoted.
  destruct (Str.strip_prefix lit s) as [r0|] eqn:E; [|discriminate].
  destruct (Str.span not_dquote r0) as [a b] eqn:E2.
  destruct a as [|c a]; [discriminate|]. destruct b as [|q b]; [discriminate|].
  intros [= <- <-].
  apply strip_prefix_length in E. apply span_length in E2.
  rewrite E, E2. simpl. lia.
Qed.

Definition inspect {A : Type} (a : A) : {b : A | a = b} := exist _ a eq_refl.

(** [re.sub] with that pattern, for a replacement [repl] already
    expanded: matches are found left to right, each is replaced, and the
    scan resumes after the match. *)
Equations sub_quoted (lit repl s : string) : string by wf (String.length s) lt :=
  sub_quoted lit repl s with inspect (match_quoted lit s) := {
    | exist _ (Some (_, r)) H => String.append repl (sub_quoted lit repl r)
    | exist _ None _ with s := {
        | EmptyString => EmptyString
        | String c t => String c (sub_quoted lit repl t) } }.
Next Obligation. intros. eapply match_quoted_shorter; eauto. Qed.

(** The replacement argument of [re.sub] is a template: the engine
    expands backslash escapes and group references in it.  A template
    without a backslash stands for itself. *)
Definition backslash : ascii := ascii_of_nat 92.

Definition has_escape (template : string) : bool :=
  Str.contains backslash template.

(** *** The world of the script *)

(** An entry of the working directory. *)
#[local] Set Warnings "-register-all".
Inductive node : Type :=
| File (content : string)
| Dir (entries : list (string * node)).

(** What became of an external command: it ran and exited, or it could
    not be started ([FileNotFoundError] when the executable is missing). *)
Inductive proc : Type :=
| Exited (returncode : Z)
| NotStarted (e : exn_class).

(** The files the script opens by absolute path: for each path that
    exists, the text that reading the file gives; and the entries of the
    working directory, in the order the system lists them. *)
Record fs : Type := {
  files : gmap string string;
  cwd : list (string * node) }.

Inductive event : Type :=
| Print (text : string)
| Input (prompt : string) (answer : option string)
| Run (argv : list string) (outcome : proc).

(** The world: the files, the lines the user will type, the behaviour
    of external commands, [sys.executable], the directory of the script,
    and the log of what has happened.  The expansion of a template with
    escapes by the regular-expression engine is not described here:
    [w_re_sub_escaped] gives what [re.sub] returns in that case, for the
    literal of the pattern, the template and the text. *)
Record world : Type := {
  w_fs : fs;
  w_stdin : list string;
  w_tools : list string -> fs -> proc * fs;
  w_re_sub_escaped : string -> string -> string -> result string;
  w_executable : string;
  w_script_dir : string;
  w_log : list event }.

Definition set_fs (f : fs) (w : world) : world :=
  {| w_fs := f; w_stdin := w_stdin w; w_tools := w_tools w;
     w_re_sub_escaped := w_re_sub_escaped w;
     w_executable := w_executable w; w_script_dir := w_script_dir w;
     w_log := w_log w |}.

Definition set_stdin (l : list string) (w : world) : world :=
  {| w_fs := w_fs w; w_stdin := l; w_tools := w_tools w;
     w_re_sub_escaped := w_re_sub_escaped w;
     w_executable := w_executable w; w_script_dir := w_script_dir w;
     w_log := w_log w |}.

Definition add_log (e : event) (w : world) : world :=
  {| w_fs := w_fs w; w_stdin := w_stdin w; w_tools := w_tools w;
     w_re_sub_escaped := w_re_sub_escaped w;
     w_executable := w_executable w; w_script_dir := w_script_dir w;
     w_log := w_log w ++ [e] |}.

Definition set_files (m : gmap string string) (f : fs) : fs :=
  {| files := m; cwd := cwd f |}.

Definition set_cwd (l : list (string * node)) (f : fs) : fs :=
  {| files := files f; cwd := l |}.

(** *** Calls with effects *)

Definition M (A : Type) : Type := world -> result A * world.

Definition ret {A : Type} (a : A) : M A := fun w => (Ok a, w).

Definition raise {A : Type} (e : exn_class) : M A := fun w => (Raise e, w).

Definition bind {A B : Type} (m : M A) (k : A -> M B) : M B :=
  fun w =>
    match m w with
    | (Ok a, w') => k a w'
    | (Raise e, w') => (Raise e, w')
    end.

Notation "'let*' x ':=' m 'in' k" := (bind m (fun x => k))
  (at level 10, x name, m at level 100, k at level 200).
Notation "m '>>' k" := (bind m (fun _ => k))
  (at level 65, right associativity).

Definition lift {A : Type} (r : result A) : M A := fun w => (r, w).

(** Reading a value of the process, such as [sys.executable]. *)
Definition gets {A : Type} (f : world -> A) : M A := fun w => (Ok (f w), w).

(** [try: body except C: handler]. *)
Definition try_except {A : Type} (body : M A) (catches : exn_class -> bool)
    (handler : M A) : M A :=
  fun w =>
    match body w with
    | (Raise e, w') => if catches e then handler w' else (Raise e, w')
    | r => r
    end.

Fixpoint for_each {A : Type} (l : list A) (body : A -> M unit) : M unit :=
  match l with
  | [] => ret tt
  | x :: rest => body x >> for_each rest body
  end.

Definition print (text : string) : M unit :=
  fun w => (Ok tt, add_log (Print text) w).

(** [input(prompt)]: the prompt is shown and one typed line is taken;
    [EOFError] when nothing is left to read. *)
Definition input (prompt : string) : M string :=
  fun w =>
    match w_stdin w with
    | [] => (Raise EOFError, add_log (Input prompt None) w)
    | line :: rest => (Ok line, add_log (Input prompt (Some line)) (set_stdin rest w))
    end.

(** [open(path, 'r').read()]. *)
Definition read_file (path : string) : M string :=
  fun w =>
    match files (w_fs w) !! path with
    | Some content => (Ok content, w)
    | None => (Raise FileNotFoundError, w)
    end.

(** [open(path, 'w').write(content)].  The store keeps for each file
    the text that reading it returns; the characters are written as they
    are (the line separator of the system being the line feed), and
    reading what was written turns its carriage returns into line
    feeds. *)
Definition write_file (path content : string) : M unit :=
  fun w =>
    (Ok tt, set_fs (set_files (<[path := Str.universal_newlines content]> (files (w_fs w)))
                      (w_fs w)) w).

(** [path.exists()]. *)
Definition path_exists (path : string) : M bool :=
  fun w => (Ok (bool_decide (is_Some (files (w_fs w) !! path))), w).

(** [subprocess.run(argv, check=True)]. *)
Definition subprocess_run (argv : list string) : M unit :=
  fun w =>
    let '(p, f) := w_tools w argv (w_fs w) in
    let w' := add_log (Run argv p) (set_fs f w) in
    match p with
    | Exited 0 => (Ok tt, w')
    | Exited _ => (Raise CalledProcessError, w')
    | NotStarted e => (Raise e, w')
    end.

Definition is_CalledProcessError (e : exn_class) : bool :=
  match e with CalledProcessError => true | _ => false end.

(** Entries of the working directory. *)
Fixpoint lookup_entry (name : string) (entries : list (string * node)) : option node :=
  match entries with
  | [] => None
  | (n, x) :: rest => if String.eqb n name then Some x else lookup_entry name rest
  end.

Definition remove_entry (name : string) (entries : list (string * node))
    : list (string * node) :=
  List.filter (fun e => negb (String.eqb (fst e) name)) entries.

(** [os.path.isdir(name)] and [os.path.exists(name)]. *)
Definition isdir (name : string) : M bool :=
  fun w =>
    (Ok match lookup_entry name (cwd (w_fs w)) with
        | Some (Dir _) => true
        | _ => false
        end, w).

Definition exists_entry (name : string) : M bool :=
  fun w =>
    (Ok match lookup_entry name (cwd (w_fs w)) with
        | Some _ => true
        | None => false
        end, w).

(** [shutil.rmtree(name)]. *)
Definition rmtree (name : string) : M unit :=
  fun w =>
    match lookup_entry name (cwd (w_fs w)) with
    | Some (Dir _) => (Ok tt, set_fs (set_cwd (remove_entry name (cwd (w_fs w))) (w_fs w)) w)
    | Some (File _) => (Raise (OtherException "NotADirectoryError"), w)
    | None => (Raise FileNotFoundError, w)
    end.

(** [os.remove(name)]. *)
Definition os_remove (name : string) : M unit :=
  fun w =>
    match lookup_entry name (cwd (w_fs w)) with
    | Some (File _) => (Ok tt, set_fs (set_cwd (remove_entry name (cwd (w_fs w))) (w_fs w)) w)
    | Some (Dir _) => (Raise IsADirectoryError, w)
    | None => (Raise FileNotFoundError, w)
    end.

(** [os.listdir('.')]. *)
Definition listdir : M (list string) :=
  fun w => (Ok (List.map fst (cwd (w_fs w))), w).

Definition is_hidden (name : string) : bool :=
  match name with
  | String c _ => Ascii.eqb c Str.dot
  | EmptyString => false
  end.

(** [glob.glob('*.egg-info')]: the names that end with the suffix;
    [*] does not match a leading dot. *)
Definition glob_egg_info : M (list string) :=
  fun w =>
    (Ok (List.filter (fun n => (Str.ends_with ".egg-info" n && negb (is_hidden n))%bool)
           (List.map fst (cwd (w_fs w)))), w).

(** *** The functions of the script *)

Definition cat (l : list string) : string := fold_right String.append EmptyString l.

Definition newline : string := Str.of_char (ascii_of_nat 10).

(** A value that may be [None], as an f-string shows it. *)
Definition fmt (o : option string) : string :=
  match o with Some s => s | None => "None"%string end.

(** Truthiness of a value that is [None] or a [str]. *)
Definition truthy (o : option string) : bool :=
  match o with Some s => Str.truthy s | None => false end.

Definition opt_eqb (a b : option string) : bool :=
  match a, b with
  | Some x, Some y => String.eqb x y
  | None, None => true
  | _, _ => false
  end.

Definition msg_version_conflict (setup_version pyproject_version : option string) : string :=
  cat ["警告: setup.py ("; fmt setup_version; ") 和 pyproject.toml (";
       fmt pyproject_version; ") 中的版本號不一致"]%string.

Definition get_current_version (setup_file pyproject_file : string) : M (option string) :=
  let* setup_content := read_file setup_file in
  let setup_version := search_quoted setup_lit setup_content in
  let* pyproject_content := read_file pyproject_file in
  let pyproject_version := search_quoted pyproject_lit pyproject_content in
  if (truthy setup_version && truthy pyproject_version
      && negb (opt_eqb setup_version pyproject_version))%bool
  then print (msg_version_conflict setup_version pyproject_version) >>
       ret setup_version
  else ret (if truthy setup_version then setup_version else pyproject_version).

(** A version declaration: the literal, the version and a double quote,
    as the f-strings of the script build it. *)
Definition declaration (lit version : string) : string :=
  String.append lit (String.append version (Str.of_char Str.dquote)).

(** [re.sub] with the pattern of [lit] and the template made of [lit],
    the new version and a double quote. *)
Definition re_sub (lit new_version content : string) : M string :=
  let template := declaration lit new_version in
  if has_escape template
  then fun w => (w_re_sub_escaped w lit template content, w)
  else ret (sub_quoted lit template content).

Definition update_version_in_files (setup_file pyproject_file new_version : string)
    : M (list string) :=
  let files_updated := [] in
  let* content := read_file setup_file in
  let* new_content := re_sub setup_lit new_version content in
  let* files_updated :=
    if negb (String.eqb new_content content)
    then write_file setup_file new_content >> ret (files_updated ++ [setup_file])
    else ret files_updated in
  let* content := read_file pyproject_file in
  let* new_content := re_sub pyproject_lit new_version content in
  let* files_updated :=
    if negb (String.eqb new_content content)
    then write_file pyproject_file new_content >> ret (files_updated ++ [pyproject_file])
    else ret files_updated in
  ret files_updated.

Definition clean_item (item : string) : M unit :=
  let* d := isdir item in
  if d then print (cat ["清理目錄: "; item]%string) >> rmtree item
  else
    let* e := exists_entry item in
    if e then print (cat ["刪除檔案: "; item]%string) >> os_remove item
    else ret tt.

Definition clean_plain (pattern : string) : M unit :=
  let* d := isdir pattern in
  if d then print (cat ["清理目錄: "; pattern]%string) >> rmtree pattern
  else ret tt.

(** The loop over [['build', 'dist', '*.egg-info']], unrolled: only the
    third pattern has a [*]. *)
Definition clean_build_directories : M unit :=
  clean_plain "build" >>
  clean_plain "dist" >>
  let* items := glob_egg_info in
  for_each items clean_item.

Definition msg_build_failed : string :=
  "打包失敗，請確認已安裝 build 套件: pip install build".

Definition msg_upload_failed : string :=
  "上傳失敗，請確認已安裝 twine 套件: pip install twine".

Definition build_argv (executable : string) : list string :=
  [executable; "-m"; "build"]%string.

Definition upload_argv (test : bool) : list string :=
  if test
  then ["twine"; "upload"; "--repository-url"; "https://test.pypi.org/legacy/"; "dist/*"]%string
  else ["twine"; "upload"; "dist/*"]%string.

Definition build_package : M bool :=
  try_except
    (let* executable := gets w_executable in
     subprocess_run (build_argv executable) >>
     ret true)
    is_CalledProcessError
    (print msg_build_failed >> ret false).

Definition upload_to_pypi (test : bool) : M bool :=
  try_except
    (subprocess_run (upload_argv test) >>
     ret true)
    is_CalledProcessError
    (print msg_upload_failed >> ret false).

Definition msg_egg_mismatch (pkg_info_path found new_version : string) : string :=
  cat ["警告: "; pkg_info_path; " 中的版本號 ("; found; ") 與目標版本 (";
       new_version; ") 不一致"]%string.

(** [os.path.join(egg_dir, 'PKG-INFO')]. *)
Definition pkg_info_path (egg_dir : string) : string :=
  cat [egg_dir; "/"; "PKG-INFO"]%string.

(** [os.path.exists] and [open(...).read()] on [egg_dir/PKG-INFO]. *)
Definition pkg_info_node (egg_dir : string) (entries : list (string * node)) : option node :=
  match lookup_entry egg_dir entries with
  | Some (Dir inner) => lookup_entry "PKG-INFO" inner
  | _ => None
  end.

Definition exists_pkg_info (egg_dir : string) : M bool :=
  fun w =>
    (Ok match pkg_info_node egg_dir (cwd (w_fs w)) with
        | Some _ => true
        | None => false
        end, w).

Definition read_pkg_info (egg_dir : string) : M string :=
  fun w =>
    match pkg_info_node egg_dir (cwd (w_fs w)) with
    | Some (File content) => (Ok content, w)
    | Some (Dir _) => (Raise IsADirectoryError, w)
    | None => (Raise FileNotFoundError, w)
    end.

(** The body of the [for egg_dir in egg_dirs] loop; [return False] ends
    the loop, and [return True] follows it. *)
Fixpoint check_egg_dirs (new_version : string) (egg_dirs : list string) : M bool :=
  match egg_dirs with
  | [] => ret true
  | egg_dir :: rest =>
      let* e := exists_pkg_info egg_dir in
      if e then
        let* content := read_pkg_info egg_dir in
        match search_version content with
        | Some found =>
            if negb (String.eqb found new_version)
            then print (msg_egg_mismatch (pkg_info_path egg_dir) found new_version) >>
                 ret false
            else check_egg_dirs new_version rest
        | None => check_egg_dirs new_version rest
        end
      else check_egg_dirs new_version rest
  end.

Definition check_egg_info_version (new_version : string) : M bool :=
  let* names := listdir in
  let egg_dirs := List.filter (Str.ends_with ".egg-info") names in
  check_egg_dirs new_version egg_dirs.

Definition prompt_confirm (current_version : option string) (new_version : string) : string :=
  cat ["確認將版本從 "; fmt current_version; " 更新至 "; new_version; "? (y/N): "]%string.

Definition prompt_test_pypi : string := "是否上傳至測試版 PyPI? (y/N): ".

Definition prompt_retry : string := "版本號可能不一致，是否仍要繼續? (y/N): ".

Definition msg_cancelled : string := "操作已取消".

Definition msg_success (new_version : string) (use_test_pypi : bool) : string :=
  cat [newline; "成功! 套件版本 "; new_version; " 已上傳至 ";
       if use_test_pypi then "測試版 " else EmptyString; "PyPI"]%string.

(** [current_dir / name]. *)
Definition path_join (dir name : string) : string := cat [dir; "/"; name]%string.

(** [main].  Each [return] of the source ends the chain with [ret]; the
    [return 1] nested in the mismatch branch is carried by [proceed],
    which is false exactly when that branch returns. *)
Definition main : M Z :=
  let* current_dir := gets w_script_dir in
  let setup_file := path_join current_dir "setup.py" in
  let pyproject_file := path_join current_dir "pyproject.toml" in
  let* setup_exists := path_exists setup_file in
  let* pyproject_exists := path_exists pyproject_file in
  if (negb setup_exists || negb pyproject_exists)%bool then
    print "錯誤: 無法找到 setup.py 或 pyproject.toml 檔案" >>
    ret 1
  else
  let* current_version := get_current_version setup_file pyproject_file in
  print (cat ["當前版本: "; fmt current_version]%string) >>
  let* new_version := lift (increment_version current_version) in
  print (cat ["新版本: "; new_version]%string) >>
  let* answer := input (prompt_confirm current_version new_version) in
  let confirm := Str.lower answer in
  if negb (String.eqb confirm "y") then
    print msg_cancelled >>
    ret 0
  else
  print (cat [newline; "清理舊的構建目錄..."]%string) >>
  clean_build_directories >>
  let* updated_files := update_version_in_files setup_file pyproject_file new_version in
  match updated_files with
  | [] =>
    print "沒有更新任何文件" >>
    ret 1
  | _ :: _ =>
  print (cat ["已更新版本號至 "; new_version; " 在以下檔案中:"]%string) >>
  for_each updated_files (fun file => print (cat ["  - "; file]%string)) >>
  let* answer := input prompt_test_pypi in
  let use_test_pypi := String.eqb (Str.lower answer) "y" in
  print (cat [newline; "開始打包..."]%string) >>
  let* built := build_package in
  if negb built then ret 1 else
  let* consistent := check_egg_info_version new_version in
  let* proceed :=
    if negb consistent then
      let* answer := input prompt_retry in
      let retry := Str.lower answer in
      if negb (String.eqb retry "y") then print msg_cancelled >> ret false
      else ret true
    else ret true in
  if negb proceed then ret 1 else
  print (cat [newline; "開始上傳至 PyPI..."]%string) >>
  let* uploaded := upload_to_pypi use_test_pypi in
  if negb uploaded then ret 1 else
  print (msg_success new_version use_test_pypi) >>
  ret 0
  end.

(** *** Vocabulary of the properties *)




(** The world after an external command. *)
Definition after_run (argv : list string) (w : world) : world :=
  let '(p, f) := w_tools w argv (w_fs w) in add_log (Run argv p) (set_fs f w).

(** An entry the loop passes over: it has no readable metadata file, or
    the file states no version, or it states the expected one. *)
Definition passes (new_version : string) (entries : list (string * node))
    (egg_dir : string) : Prop :=
  match pkg_info_node egg_dir entries with
  | None => True
  | Some (File content) =>
      match search_version content with
      | None => True
      | Some found => found = new_version
      end
  | Some (Dir _) => False
  end.

(** Every event a call adds to the log satisfies [P]. *)
Definition emits (P : event -> Prop) {A : Type} (m : M A) : Prop :=
  forall w r w', m w = (r, w') ->
    exists evs, w_log w' = w_log w ++ evs /\ Forall P evs.

(** The events of [main] before the build: lines printed and the two
    first questions; no command is run. *)
Definition early (e : event) : Prop :=
  match e with
  | Print _ => True
  | Input prompt _ => prompt <> prompt_retry
  | Run _ _ => False
  end.

(** A build that ran and failed; a run of the upload tool. *)
Definition build_failure (e : event) : Prop :=
  exists executable code, e = Run (build_argv executable) (Exited code) /\ code <> 0.

Definition upload_run (e : event) : Prop :=
  exists test outcome, e = Run (upload_argv test) outcome.

(** The events after a successful build: lines, questions, and runs of
    the upload tool. *)
Definition late (e : event) : Prop :=
  match e with
  | Run argv _ => exists test, argv = upload_argv test
  | _ => True
  end.


(** The part of [main] from the upload on. *)
Definition finish (new_version : string) (use_test_pypi : bool) : M Z :=
  print (cat [newline; "開始上傳至 PyPI..."]%string) >>
  let* uploaded := upload_to_pypi use_test_pypi in
  if negb uploaded then ret 1 else
  print (msg_success new_version use_test_pypi) >>
  ret 0.

(** The extra question asked after a mismatch. *)
Definition ask_retry : M bool :=
  let* answer := input prompt_retry in
  let retry := Str.lower answer in
  if negb (String.eqb retry "y") then print msg_cancelled >> ret false
  else ret true.

(** The part of [main] after a successful build. *)
Definition after_build (new_version : string) (use_test_pypi : bool) : M Z :=
  let* consistent := check_egg_info_version new_version in
  let* proceed := if negb consistent then ask_retry else ret true in
  if negb proceed then ret 1 else finish new_version use_test_pypi.

(** The part of [main] from the build on. *)
Definition publish (new_version : string) (use_test_pypi : bool) : M Z :=
  let* built := build_package in
  if negb built then ret 1 else after_build new_version use_test_pypi.

(** A run of [m] either ends having added only [P] events, or comes,
    having added only [P] events, to the build step and goes on as
    [publish] does. *)
Definition reaches_publish (P : event -> Prop) (m : M Z) : Prop :=
  forall w r w', m w = (r, w') ->
    (exists evs, w_log w' = w_log w ++ evs /\ Forall P evs)
    \/ (exists w1 new_version use_test_pypi evs,
          w_log w1 = w_log w ++ evs /\ Forall P evs
          /\ publish new_version use_test_pypi w1 = (r, w')).





End Publish.

(** ** __init__.py *)

Module Loader.

(** An exception object: its class, and what formatting it in an
    f-string gives, [str(e)]: a text, or, when [__str__] raises, the
    exception that comes out of it. *)
Inductive raised : Type :=
| Exc (c : exn_class) (s : formatted)
with formatted : Type :=
| Text (text : string)
| StrRaises (e : raised).

Definition exc_class (e : raised) : exn_class :=
  match e with Exc c _ => c end.

Definition exc_str (e : raised) : formatted :=
  match e with Exc _ s => s end.

(** How a call ends. *)
Inductive outcome : Type :=
| Returned
| Raised (e : raised).

(** What the entry point writes: a line on standard output, or the
    traceback of an exception, [traceback.print_exc()]. *)
Inductive event : Type :=
| Print (text : string)
| PrintExc (e : raised).

Section Load.

(** The state of the host, which the feature module may change. *)
Variable host : Type.

(** What becomes of a write: [None] when the line or the traceback is
    written, or the exception the write raises (a character the
    encoding of the stream lacks, a closed stream). *)
Variable write_error : event -> option raised.

(** The behaviour of [gpt_tool.load_plugin]. *)
Definition plugin : Type := host -> outcome * host.

Definition msg_load_failed (text : string) : string :=
  String.append "載入 GPT 插件時出錯: " text.

(** [gpt_load_plugin] is [None] when neither import succeeded.  The
    handler formats the exception, prints the line and prints the
    traceback; an exception raised by one of these steps leaves
    [load]. *)
Definition load (gpt_load_plugin : option plugin) (h : host)
    : outcome * host * list event :=
  match gpt_load_plugin with
  | Some f =>
      match f h with
      | (Returned, h') => (Returned, h', [])
      | (Raised e, h') =>
          if is_Exception (exc_class e) then
            match exc_str e with
            | StrRaises x => (Raised x, h', [])
            | Text text =>
                let line := Print (msg_load_failed text) in
                match write_error line with
                | Some x => (Raised x, h', [])
                | None =>
                    match write_error (PrintExc e) with
                    | Some x => (Raised x, h', [line])
                    | None => (Returned, h', [line; PrintExc e])
                    end
                end
            end
          else (Raised e, h', [])
      end
  | None => (Returned, h, [])
  end.

End Load.

End Loader.

(** ** Sample worlds *)

Module Scenario.

Import Publish.

Definition script_dir : string := "/project".
Definition setup_file : string := path_join script_dir "setup.py".
Definition pyproject_file : string := path_join script_dir "pyproject.toml".

Definition setup_py (version : string) : string :=
  cat ["setup(name='pkg', "; declaration setup_lit version; ")"]%string.

Definition pyproject_toml (version : string) : string :=
  cat ["[project]"; newline; declaration pyproject_lit version]%string.

Definition egg_info (version : string) : string * node :=
  ("pkg.egg-info"%string,
   Dir [("PKG-INFO"%string,
         File (cat ["Name: pkg"; newline; "Version: "; version]%string))]).

(** External commands that succeed and leave the files alone. *)
Definition quiet_tools : list string -> fs -> proc * fs :=
  fun _ f => (Exited 0, f).

Definition world_with (tools : list string -> fs -> proc * fs)
    (setup_version pyproject_version : string)
    (entries : list (string * node)) (typed : list string) : world :=
  {| w_fs := {| files := <[setup_file := setup_py setup_version]>
                           (<[pyproject_file := pyproject_toml pyproject_version]> ∅);
                cwd := entries |};
     w_stdin := typed;
     w_tools := tools;
     w_re_sub_escaped := fun _ _ _ => Raise (OtherException "re.error");
     w_executable := "/usr/bin/python3";
     w_script_dir := script_dir;
     w_log := [] |}.

Definition release_world := world_with quiet_tools.

(** A machine on which every command but [twine] exits with status 1. *)
Definition build_fails : list string -> fs -> proc * fs :=
  fun argv f =>
    match argv with
    | name :: _ =>
        if String.eqb name "twine" then (Exited 0, f) else (Exited 1, f)
    | [] => (Exited 0, f)
    end.


(** A machine without [twine]: starting it fails, anything else runs. *)
Definition no_twine : list string -> fs -> proc * fs :=
  fun argv f =>
    match argv with
    | name :: _ =>
        if String.eqb name "twine" then (NotStarted FileNotFoundError, f)
        else (Exited 0, f)
    | [] => (Exited 0, f)
    end.

End Scenario.

(** ** The start of the plug-in module *)

Module Startup.

(** [if plugin_dir not in sys.path: sys.path.insert(0, plugin_dir)]. *)
Definition add_plugin_dir (plugin_dir : string) (sys_path : list string) : list string :=
  if existsb (String.eqb plugin_dir) sys_path then sys_path
  else plugin_dir :: sys_path.

(** What an [import] statement does: it binds the function, or raises. *)
Inductive imported (plugin : Type) : Type :=
| Found (f : plugin)
| Failed (e : Loader.raised).
Arguments Found {plugin} f.
Arguments Failed {plugin} e.

(** What the two nested [try] statements leave: a value for
    [gpt_load_plugin], or an exception that ends the import of the
    module. *)
Inductive resolved (plugin : Type) : Type :=
| Bound (gpt_load_plugin : option plugin)
| Escaped (e : Loader.raised).
Arguments Bound {plugin} gpt_load_plugin.
Arguments Escaped {plugin} e.

Section Resolve.

Variable plugin : Type.

(** The classes that derive from [ImportError]. *)
Variable is_ImportError : exn_class -> bool.

(** What becomes of a write, as for [load]. *)
Variable write_error : Loader.event -> option Loader.raised.

Definition msg_import_failed (text : string) : string :=
  String.append "無法導入 gpt_tool 模組: " text.

(** The absolute import, then, if it raised [ImportError], the relative
    one; if that raised [ImportError] too, the message and [None].  The
    handler formats the exception and prints; an exception raised by
    one of these steps leaves the module. *)
Definition resolve (absolute relative : imported plugin)
    : resolved plugin * list Loader.event :=
  match absolute with
  | Found f => (Bound (Some f), [])
  | Failed e =>
      if is_ImportError (Loader.exc_class e) then
        match relative with
        | Found f => (Bound (Some f), [])
        | Failed e' =>
            if is_ImportError (Loader.exc_class e') then
              match Loader.exc_str e' with
              | Loader.StrRaises x => (Escaped x, [])
              | Loader.Text text =>
                  let line := Loader.Print (msg_import_failed text) in
                  match write_error line with
                  | Some x => (Escaped x, [])
                  | None => (Bound None, [line])
                  end
              end
            else (Escaped e', [])
        end
      else (Escaped e, [])
  end.

End Resolve.

End Startup.

(** ** Vocabulary of further properties *)

Module More.

Import Publish.

(** A call that returns, returns a value that satisfies [Q]. *)
Definition returns {A : Type} (Q : A -> Prop) (m : M A) : Prop :=
  forall w r w', m w = (r, w') ->
    match r with
    | Ok a => Q a
    | Raise _ => True
    end.

Definition is_run (e : event) : Prop :=
  match e with
  | Run _ _ => True
  | _ => False
  end.

(** The characters of the text of a number. *)
Definition minus : ascii := ascii_of_nat 45.

Definition numeral_char (c : ascii) : bool :=
  (PyInt.is_digit c || Ascii.eqb c minus)%bool.

(** The text holds a declaration of the version. *)
Definition declares (lit version text : string) : Prop :=
  exists before after,
    text = String.append before (String.append (declaration lit version) after).

(** [os.path.isdir(name)] on a list of entries. *)
Definition is_dir_entry (name : string) (entries : list (string * node)) : bool :=
  match lookup_entry name entries with
  | Some (Dir _) => true
  | _ => false
  end.

(** The names [glob.glob('*.egg-info')] gives. *)
Definition egg_info_visible (name : string) : bool :=
  (Str.ends_with ".egg-info" name && negb (is_hidden name))%bool.

(** The entries [clean_build_directories] removes from [entries]: build
    and dist when they are directories, and every visible name that ends
    in .egg-info, file or directory. *)
Definition swept (entries : list (string * node)) (name : string) : bool :=
  ((String.eqb name "build" && is_dir_entry "build" entries)
   || (String.eqb name "dist" && is_dir_entry "dist" entries)
   || egg_info_visible name)%bool.

Definition after_clean (entries : list (string * node)) : list (string * node) :=
  List.filter (fun e => negb (swept entries (fst e))) entries.

(** The steps of the cleanup, as changes of the working directory. *)
Definition cleaned_by (entries : list (string * node)) (w w' : world) : Prop :=
  files (w_fs w') = files (w_fs w)
  /\ cwd (w_fs w') = entries
  /\ w_stdin w' = w_stdin w.

Definition is_print (e : event) : Prop :=
  match e with
  | Print _ => True
  | _ => False
  end.

(** A call that returns a value leaves a log that satisfies [Q]. *)
Definition leaves {A : Type} (Q : A -> list event -> Prop) (m : M A) : Prop :=
  forall w a w', m w = (Ok a, w') -> Q a (w_log w').

(** The two ways a log ends when [main] returns 0: the first question
    was answered with something other than y and the cancellation was
    printed; or the upload ran and exited with status 0, and the line of
    success was printed. *)
Definition success_log (log : list event) : Prop :=
  (exists before current_version new_version answer,
      log = before ++ [Input (prompt_confirm current_version new_version) (Some answer);
                       Print msg_cancelled]
      /\ Str.lower answer <> "y"%string)
  \/ (exists before new_version test,
        log = before ++ [Run (upload_argv test) (Exited 0);
                         Print (msg_success new_version test)]).

End More.

(** * Properties *)

(** ** Splitting and joining *)

Section StrFacts.

Variable sep : ascii.

Lemma split_not_nil (s : string) : Str.split sep s <> [].
Proof.
  destruct s as [|c t]; simpl; [discriminate|].
  destruct (Ascii.eqb c sep); [discriminate|].
  destruct (Str.split sep t); discriminate.
Qed.

Lemma join_cons (p : string) (rest : list string) :
  rest <> [] ->
  Str.join sep (p :: rest) = String.append p (String sep (Str.join sep rest)).
Proof. destruct rest; [congruence | reflexivity]. Qed.

Lemma join_split (s : string) : Str.join sep (Str.split sep s) = s.
Proof.
  induction s as [|c t IH]; [reflexivity|].
  simpl. destruct (Ascii.eqb_spec c sep) as [->|Hc].
  - rewrite join_cons by apply split_not_nil. simpl. now rewrite IH.
  - pose proof (split_not_nil t) as Hn.
    destruct (Str.split sep t) as [|h r]; [congruence|].
    destruct r as [|h' r'].
    + simpl in *. now rewrite IH.
    + rewrite join_cons by discriminate. rewrite join_cons in IH by discriminate.
      rewrite <- IH. reflexivity.
Qed.

Lemma split_app_no_sep (p s : string) :
  Str.contains sep p = false ->
  Str.split sep (String.append p (String sep s)) = p :: Str.split sep s.
Proof.
  induction p as [|c t IH]; simpl.
  - intros _. now rewrite Ascii.eqb_refl.
  - intros H. apply orb_false_iff in H as [Hc Ht].
    rewrite Hc, (IH Ht). reflexivity.
Qed.

Lemma split_no_sep (p : string) :
  Str.contains sep p = false -> Str.split sep p = [p].
Proof.
  induction p as [|c t IH]; simpl; [reflexivity|].
  intros H. apply orb_false_iff in H as [Hc Ht].
  now rewrite Hc, (IH Ht).
Qed.

Lemma split_join (parts : list string) :
  parts <> [] ->
  Forall (fun p => Str.contains sep p = false) parts ->
  Str.split sep (Str.join sep parts) = parts.
Proof.
  induction parts as [|p rest IH]; [congruence|].
  intros _ HF. apply Forall_cons_iff in HF as [Hp Hrest].
  destruct rest as [|q rest'].
  - simpl. now apply split_no_sep.
  - rewrite join_cons by discriminate.
    rewrite split_app_no_sep by assumption.
    f_equal. apply IH; [discriminate | assumption].
Qed.

Lemma split_parts_no_sep (s : string) :
  Forall (fun p => Str.contains sep p = false) (Str.split sep s).
Proof.
  induction s as [|c t IH]; simpl.
  - repeat constructor.
  - destruct (Ascii.eqb c sep) eqn:Hc.
    + constructor; [reflexivity | assumption].
    + destruct (Str.split sep t) as [|h r]; [repeat constructor; simpl; now rewrite Hc|].
      apply Forall_cons_iff in IH as [Hh Hr].
      constructor; [simpl; now rewrite Hc, Hh | assumption].
Qed.

Lemma join_snoc (parts : list string) (x : string) :
  parts <> [] ->
  Str.join sep (parts ++ [x]) = String.append (Str.join sep parts) (String sep x).
Proof.
  induction parts as [|p rest IH]; [congruence|]. intros _.
  destruct rest as [|q rest'].
  - reflexivity.
  - change ((p :: q :: rest') ++ [x]) with (p :: ((q :: rest') ++ [x])).
    rewrite join_cons by (simpl; discriminate).
    rewrite IH by discriminate.
    rewrite (join_cons p (q :: rest')) by discriminate.
    generalize (Str.join sep (q :: rest')) as j. intros j.
    clear. induction p as [|c t IHp]; simpl; [reflexivity | now f_equal].
Qed.

End StrFacts.

(** ** Decimal numerals *)

Section PyIntFacts.

Lemma digit_not_space (c : ascii) :
  PyInt.is_digit c = true -> PyInt.is_space c = false.
Proof.
  unfold PyInt.is_digit, PyInt.is_space. intros H.
  apply andb_true_iff in H as [H1 H2].
  apply Nat.leb_le in H1, H2.
  apply orb_false_iff; split.
  - apply andb_false_iff. right. apply Nat.leb_gt. lia.
  - apply Nat.eqb_neq. lia.
Qed.

Lemma digit_not_code (c : ascii) (n : nat) :
  PyInt.is_digit c = true -> (n < 48)%nat -> Ascii.eqb c (ascii_of_nat n) = false.
Proof.
  intros H Hn. destruct (Ascii.eqb_spec c (ascii_of_nat n)) as [->|]; [|reflexivity].
  unfold PyInt.is_digit in H. rewrite nat_ascii_embedding in H by lia.
  apply andb_true_iff in H as [H1 _]. apply Nat.leb_le in H1. lia.
Qed.

Lemma digit_not_dot (c : ascii) :
  PyInt.is_digit c = true -> Ascii.eqb c Str.dot = false.
Proof. intros H. apply (digit_not_code c 46 H). lia. Qed.

Lemma lstrip_digits (s : string) :
  Str.all_chars PyInt.is_digit s = true -> PyInt.lstrip s = s.
Proof.
  destruct s as [|c t]; simpl; [reflexivity|].
  intros H. apply andb_true_iff in H as [Hc _].
  now rewrite (digit_not_space c Hc).
Qed.

Lemma rstrip_digits (s : string) :
  Str.all_chars PyInt.is_digit s = true -> PyInt.rstrip s = s.
Proof.
  induction s as [|c t IH]; simpl; [reflexivity|].
  intros H. apply andb_true_iff in H as [Hc Ht].
  rewrite (IH Ht). destruct t; [now rewrite (digit_not_space c Hc) | reflexivity].
Qed.

Lemma parse_digits_value (s : string) : forall acc prev,
  Str.all_chars PyInt.is_digit s = true ->
  (Str.truthy s || prev)%bool = true ->
  PyInt.parse_digits s acc prev = Some (PyInt.decimal_value_from acc s).
Proof.
  induction s as [|c t IH]; simpl; intros acc prev Hd Hp.
  - now rewrite Hp.
  - apply andb_true_iff in Hd as [Hc Ht]. rewrite Hc.
    apply IH; [assumption | apply orb_true_r].
Qed.

(** On a string of digits the syntax of [int] is met, with the decimal
    value. *)
Lemma numeral_decimal (s : string) :
  PyInt.is_decimal s = true -> PyInt.numeral s = Some (PyInt.decimal_value s).
Proof.
  unfold PyInt.is_decimal, PyInt.numeral. intros H.
  apply andb_true_iff in H as [Hne Hd].
  rewrite (lstrip_digits s Hd), (rstrip_digits s Hd).
  destruct s as [|c t]; [discriminate|].
  pose proof Hd as Hd'. simpl in Hd'. apply andb_true_iff in Hd' as [Hc _].
  rewrite (digit_not_code c 43 Hc) by lia.
  rewrite (digit_not_code c 45 Hc) by lia.
  now apply parse_digits_value.
Qed.

Lemma count_digits_all (s : string) :
  Str.all_chars PyInt.is_digit s = true -> PyInt.count_digits s = String.length s.
Proof.
  induction s as [|c t IH]; simpl; [reflexivity|].
  intros H. apply andb_true_iff in H as [Hc Ht]. now rewrite Hc, (IH Ht).
Qed.

Lemma count_digits_le (s : string) : (PyInt.count_digits s <= String.length s)%nat.
Proof. induction s as [|c t IH]; simpl; [lia|]. destruct (PyInt.is_digit c); lia. Qed.

Lemma within_limit_length (s : string) :
  (String.length s <= PyInt.max_str_digits)%nat -> PyInt.within_limit s = true.
Proof.
  intros H. apply Nat.leb_le. pose proof (count_digits_le s). lia.
Qed.

(** On a string of digits within the limit [int] succeeds and gives the
    decimal value. *)
Lemma int_decimal (s : string) :
  PyInt.is_decimal s = true ->
  (String.length s <= PyInt.max_str_digits)%nat ->
  PyInt.int s = Some (PyInt.decimal_value s).
Proof.
  intros H Hl. unfold PyInt.int.
  now rewrite (within_limit_length s Hl), (numeral_decimal s H).
Qed.

(** The numeral of a number, digit by digit. *)
Lemma uint_digits (d : Decimal.uint) :
  Str.all_chars PyInt.is_digit (NilEmpty.string_of_uint d) = true.
Proof. induction d; simpl; auto. Qed.

Lemma uint_value_acc (d : Decimal.uint) : forall acc : positive,
  PyInt.decimal_value_from (Z.pos acc) (NilEmpty.string_of_uint d)
  = Z.pos (Pos.of_uint_acc d acc).
Proof.
  induction d; intros acc; simpl; try reflexivity;
    (etransitivity; [|apply IHd]); f_equal;
    unfold PyInt.digit_value;
    match goal with
    | |- context [Z.of_nat (nat_of_ascii ?c)] =>
        let v := eval vm_compute in (Z.of_nat (nat_of_ascii c)) in
        change (Z.of_nat (nat_of_ascii c)) with v
    end; lia.
Qed.

Lemma uint_value (d : Decimal.uint) :
  PyInt.decimal_value_from 0 (NilEmpty.string_of_uint d) = Z.of_N (Pos.of_uint d).
Proof.
  induction d; simpl; try reflexivity; try assumption;
    apply (uint_value_acc d).
Qed.

Lemma string_of_uint_not_nil (d : Decimal.uint) :
  d <> Decimal.Nil ->
  NilZero.string_of_uint d = NilEmpty.string_of_uint d
  /\ Str.truthy (NilEmpty.string_of_uint d) = true.
Proof. destruct d; [congruence | split; reflexivity ..]. Qed.

(** The numeral of a natural number is a string of digits, and reading
    it gives the number back. *)
Lemma decimal_nonneg (n : Z) :
  0 <= n ->
  PyInt.is_decimal (PyInt.decimal n) = true
  /\ PyInt.decimal_value (PyInt.decimal n) = n.
Proof.
  intros Hn. unfold PyInt.decimal.
  pose proof (DecimalZ.of_to n) as Hround.
  destruct n as [|p|p]; [split; reflexivity | | lia].
  simpl in *. unfold Z.of_uint in Hround.
  assert (Hnil : Pos.to_uint p <> Decimal.Nil).
  { intros E. rewrite E in Hround. discriminate. }
  destruct (string_of_uint_not_nil _ Hnil) as [-> Ht].
  unfold PyInt.is_decimal, PyInt.decimal_value.
  rewrite Ht, uint_digits, uint_value. split; [reflexivity | exact Hround].
Qed.

(** *** The length of a numeral *)

Lemma digit_value_bounds (c : ascii) :
  PyInt.is_digit c = true -> 0 <= PyInt.digit_value c <= 9.
Proof.
  unfold PyInt.is_digit, PyInt.digit_value. intros H.
  apply andb_true_iff in H as [H1 H2]. apply Nat.leb_le in H1, H2. lia.
Qed.

Lemma pow10_succ (n : nat) : 10 ^ Z.of_nat (S n) = 10 * 10 ^ Z.of_nat n.
Proof. rewrite Nat2Z.inj_succ, Z.pow_succ_r by lia. reflexivity. Qed.

Lemma decimal_value_bounds (s : string) : forall acc,
  Str.all_chars PyInt.is_digit s = true -> 0 <= acc ->
  acc * 10 ^ Z.of_nat (String.length s) <= PyInt.decimal_value_from acc s
  /\ PyInt.decimal_value_from acc s < (acc + 1) * 10 ^ Z.of_nat (String.length s).
Proof.
  induction s as [|c t IH]; intros acc H Hacc.
  - simpl. lia.
  - cbn [Str.all_chars] in H. apply andb_true_iff in H as [Hc Ht].
    pose proof (digit_value_bounds c Hc) as Hd.
    cbn [PyInt.decimal_value_from String.length].
    destruct (IH (10 * acc + PyInt.digit_value c) Ht ltac:(lia)) as [Hlo Hhi].
    rewrite pow10_succ.
    assert (Hp : 0 < 10 ^ Z.of_nat (String.length t)) by (apply Z.pow_pos_nonneg; lia).
    split; nia.
Qed.

(** A numeral of [k] digits that does not begin with 0 stands for a
    number of at least 10 to the power [k - 1]. *)
Lemma decimal_value_lower (c : ascii) (t : string) :
  Str.all_chars PyInt.is_digit (String c t) = true ->
  Ascii.eqb c "0" = false ->
  10 ^ Z.of_nat (String.length t) <= PyInt.decimal_value (String c t).
Proof.
  intros H Hc. cbn [Str.all_chars] in H. apply andb_true_iff in H as [Hd Ht].
  unfold PyInt.decimal_value. cbn [PyInt.decimal_value_from].
  assert (H1 : 1 <= PyInt.digit_value c).
  { pose proof (digit_value_bounds c Hd) as Hb.
    destruct (Z.eq_dec (PyInt.digit_value c) 0) as [E|]; [|lia].
    exfalso. apply Ascii.eqb_neq in Hc. apply Hc.
    unfold PyInt.digit_value in E.
    rewrite <- (ascii_nat_embedding c).
    replace (nat_of_ascii c) with 48%nat by lia. reflexivity. }
  destruct (decimal_value_bounds t (10 * 0 + PyInt.digit_value c) Ht ltac:(lia)) as [Hlo _].
  assert (Hp : 0 < 10 ^ Z.of_nat (String.length t)) by (apply Z.pow_pos_nonneg; lia).
  nia.
Qed.

Lemma to_uint_head (p : positive) (d : Decimal.uint) : Pos.to_uint p <> Decimal.D0 d.
Proof.
  pose proof (DecimalPos.Unsigned.to_of (Pos.to_uint p)) as H.
  rewrite DecimalPos.Unsigned.of_to in H. simpl in H.
  assert (Hn : Decimal.nzhead (Pos.to_uint p) <> Decimal.Nil).
  { intros E. apply DecimalFacts.unorm_0 in E. rewrite <- H in E.
    exact (DecimalPos.Unsigned.to_uint_nonzero p E). }
  rewrite (DecimalFacts.unorm_nzhead _ Hn) in H. rewrite H.
  apply DecimalFacts.nzhead_nonzero.
Qed.

Lemma string_of_uint_head (u : Decimal.uint) :
  (forall d, u <> Decimal.D0 d) -> u <> Decimal.Nil ->
  exists c t, NilEmpty.string_of_uint u = String c t /\ Ascii.eqb c "0" = false.
Proof.
  intros H0 Hn.
  destruct u; [congruence | exfalso; exact (H0 _ eq_refl)
              | eexists _, _; split; reflexivity ..].
Qed.

(** The numeral of a number below 10 to the power [k] has at most [k]
    digits. *)
Lemma decimal_length (n : Z) (k : nat) :
  0 <= n < 10 ^ Z.of_nat k ->
  (String.length (PyInt.decimal n) <= Nat.max k 1)%nat.
Proof.
  intros [Hn Hk].
  destruct (decimal_nonneg n Hn) as [Hdec Hval].
  destruct n as [|p|p]; [simpl; lia | | lia].
  unfold PyInt.decimal in *. simpl in *.
  destruct (string_of_uint_not_nil _ (DecimalPos.Unsigned.to_uint_nonnil p)) as [E _].
  rewrite E in *.
  destruct (string_of_uint_head (Pos.to_uint p) (to_uint_head p)
              (DecimalPos.Unsigned.to_uint_nonnil p)) as (c & t & Es & Hc).
  rewrite Es in *.
  apply andb_true_iff in Hdec as [_ Hd].
  pose proof (decimal_value_lower c t Hd Hc) as Hlo.
  rewrite Hval in Hlo.
  assert (Hlt : Z.of_nat (String.length t) < Z.of_nat k).
  { apply (Z.pow_lt_mono_r_iff 10); lia. }
  simpl. lia.
Qed.

End PyIntFacts.

(** ** increment_version *)

Import Publish.

Lemma digit_value_nonneg (c : ascii) :
  PyInt.is_digit c = true -> 0 <= PyInt.digit_value c.
Proof.
  unfold PyInt.is_digit, PyInt.digit_value. intros H.
  apply andb_true_iff in H as [H _]. apply Nat.leb_le in H. lia.
Qed.

Lemma decimal_value_nonneg (s : string) : forall acc,
  Str.all_chars PyInt.is_digit s = true -> 0 <= acc ->
  0 <= PyInt.decimal_value_from acc s.
Proof.
  induction s as [|c t IH]; simpl; intros acc H Hacc; [assumption|].
  apply andb_true_iff in H as [Hc Ht].
  apply IH; [assumption|]. pose proof (digit_value_nonneg c Hc). lia.
Qed.

Lemma digits_no_dot (s : string) :
  Str.all_chars PyInt.is_digit s = true -> Str.contains Str.dot s = false.
Proof.
  induction s as [|c t IH]; simpl; [reflexivity|].
  intros H. apply andb_true_iff in H as [Hc Ht].
  now rewrite (digit_not_dot c Hc), (IH Ht).
Qed.

Lemma split_long_truthy (v : string) :
  (2 <= length (Str.split Str.dot v))%nat -> Str.truthy v = true.
Proof. destruct v; simpl; [lia | reflexivity]. Qed.

Lemma Forall_removelast {A : Type} (P : A -> Prop) (l : list A) :
  Forall P l -> Forall P (removelast l).
Proof.
  induction l as [|x l IH]; [trivial|].
  intros H. apply Forall_cons_iff in H as [Hx Hl].
  destruct l; [constructor|]. simpl. constructor; [assumption | now apply IH].
Qed.

(** C1, as stated, fails for a last component longer than the limit of
    the interpreter on numerals: with 4301 digits [int] raises
    [ValueError], and nothing is returned. *)
Lemma increment_version_long_numeral :
  let v := String.append "1.2.1" (Str.repeat "0" 4300) in
  (3 <= length (Str.split Str.dot v))%nat
  /\ PyInt.is_decimal (List.last (Str.split Str.dot v) Str.empty) = true
  /\ increment_version (Some v) = Raise ValueError.
Proof.
  intros v.
  assert (Hs : Str.split Str.dot v = ["1"; "2"; String.append "1" (Str.repeat "0" 4300)]%string)
    by (vm_compute; reflexivity).
  rewrite Hs. split; [simpl; lia|]. split; vm_compute; reflexivity.
Qed.

Lemma str_within (n : Z) (k : nat) :
  0 <= n < 10 ^ Z.of_nat k -> (Nat.max k 1 <= PyInt.max_str_digits)%nat ->
  PyInt.str n = Some (PyInt.decimal n).
Proof.
  intros Hn Hk. unfold PyInt.str.
  rewrite within_limit_length; [reflexivity|].
  pose proof (decimal_length n k Hn). lia.
Qed.

Lemma max_str_digits_pos : (1 <= PyInt.max_str_digits)%nat.
Proof. unfold PyInt.max_str_digits. lia. Qed.

(** C1, amended.  For a version with three or more components whose
    last one is a string of fewer than 4300 digits, [increment_version]
    returns the components joined again, all but the last unchanged, and
    the last replaced by the decimal numeral of its value plus one.
    Nothing is carried into the other components: splitting the result
    gives back exactly the old components followed by the new numeral. *)
Theorem increment_version_last_successor (v : string) :
  let parts := Str.split Str.dot v in
  let next := PyInt.decimal (PyInt.decimal_value (List.last parts Str.empty) + 1) in
  (3 <= length parts)%nat ->
  PyInt.is_decimal (List.last parts Str.empty) = true ->
  (String.length (List.last parts Str.empty) < PyInt.max_str_digits)%nat ->
  increment_version (Some v) = Ok (Str.join Str.dot (removelast parts ++ [next]))
  /\ Str.split Str.dot (Str.join Str.dot (removelast parts ++ [next]))
     = removelast parts ++ [next]
  /\ PyInt.is_decimal next = true
  /\ PyInt.decimal_value next = PyInt.decimal_value (List.last parts Str.empty) + 1.
Proof.
  intros parts next Hlen Hdec Hlim.
  pose proof Hdec as Hdec'. apply andb_true_iff in Hdec' as [_ Hd].
  destruct (decimal_value_bounds _ 0 Hd ltac:(lia)) as [Hlo Hhi].
  fold (PyInt.decimal_value (List.last parts Str.empty)) in Hlo, Hhi.
  destruct (decimal_nonneg (PyInt.decimal_value (List.last parts Str.empty) + 1))
    as [Hnext Hround]; [lia|].
  fold next in Hnext, Hround.
  split; [|split; [|split; assumption]].
  - unfold increment_version.
    rewrite split_long_truthy by (fold parts; lia). cbn [negb].
    fold parts. apply Nat.leb_le in Hlen. rewrite Hlen.
    rewrite (int_decimal _ Hdec) by lia.
    rewrite (str_within _ (S (String.length (List.last parts Str.empty)))).
    + reflexivity.
    + rewrite pow10_succ. lia.
    + lia.
  - apply split_join.
    + intros E. apply app_eq_nil in E as [_ E]. discriminate.
    + apply Forall_app; split.
      * apply Forall_removelast, split_parts_no_sep.
      * repeat constructor. apply digits_no_dot.
        now apply andb_true_iff in Hnext as [_ Hd'].
Qed.

Lemma increment_version_last_successor_witness :
  (3 <= length (Str.split Str.dot "1.9.9"))%nat
  /\ PyInt.is_decimal (List.last (Str.split Str.dot "1.9.9") Str.empty) = true
  /\ increment_version (Some "1.9.9"%string) = Ok "1.9.10"%string.
Proof.
  split; [vm_compute; lia|]. split; [reflexivity|].
  refine (proj1 (increment_version_last_successor "1.9.9" _ _ _)).
  - vm_compute. lia.
  - reflexivity.
  - vm_compute. lia.
Defined.

(** C2, as stated, fails on the empty string: it has a single (empty)
    component, yet the guard [if not version] answers 0.1.0 for it as it
    does for [None], and no component is appended. *)
Lemma increment_version_empty_string :
  (length (Str.split Str.dot EmptyString) < 3)%nat
  /\ increment_version (Some EmptyString) = Ok "0.1.0"%string
  /\ increment_version (Some EmptyString)
     <> Ok (Str.join Str.dot (Str.split Str.dot EmptyString ++ ["1"%string])).
Proof. split; [vm_compute; lia|]. split; [reflexivity | discriminate]. Qed.

(** C2, amended.  For a non-empty version with fewer than three
    components, [increment_version] appends a new component 1: the result
    is the version followed by a dot and 1, and its components are the old
    ones followed by 1.  For [None], and for the empty string, the result
    is 0.1.0. *)
Theorem increment_version_appends_one (v : string) :
  v <> EmptyString ->
  (length (Str.split Str.dot v) < 3)%nat ->
  increment_version (Some v) = Ok (String.append v ".1")
  /\ Str.split Str.dot (String.append v ".1") = Str.split Str.dot v ++ ["1"%string]
  /\ increment_version None = Ok "0.1.0"%string
  /\ increment_version (Some EmptyString) = Ok "0.1.0"%string.
Proof.
  intros Hne Hlen.
  assert (Hjoin : Str.join Str.dot (Str.split Str.dot v ++ ["1"%string])
                  = String.append v ".1").
  { rewrite join_snoc by apply split_not_nil. now rewrite join_split. }
  split; [|split; [|split; reflexivity]].
  - unfold increment_version.
    destruct v as [|c t]; [congruence|].
    change (negb (Str.truthy (String c t))) with false. cbv iota.
    apply Nat.leb_gt in Hlen. rewrite Hlen. now rewrite Hjoin.
  - rewrite <- Hjoin. apply split_join.
    + intros E. apply app_eq_nil in E as [_ E]. discriminate.
    + apply Forall_app; split; [apply split_parts_no_sep | repeat constructor].
Qed.

Lemma increment_version_appends_one_witness :
  increment_version (Some "1.2"%string) = Ok "1.2.1"%string
  /\ increment_version (Some "1"%string) = Ok "1.1"%string.
Proof.
  split.
  - refine (proj1 (increment_version_appends_one "1.2" _ _)); [discriminate | vm_compute; lia].
  - refine (proj1 (increment_version_appends_one "1" _ _)); [discriminate | vm_compute; lia].
Defined.

(** ** Text lemmas for the patterns *)

Lemma append_nil_r (s : string) : String.append s EmptyString = s.
Proof. induction s as [|c t IH]; simpl; [reflexivity | now rewrite IH]. Qed.

Lemma append_assoc (a b c : string) :
  String.append (String.append a b) c = String.append a (String.append b c).
Proof. induction a as [|x a IH]; simpl; [reflexivity | now rewrite IH]. Qed.


Lemma strip_prefix_inv (p : string) : forall s r,
  Str.strip_prefix p s = Some r -> s = String.append p r.
Proof.
  induction p as [|a p IH]; intros s r; simpl.
  - now intros [= ->].
  - destruct s as [|b s']; [discriminate|].
    destruct (Ascii.eqb_spec a b) as [->|]; [|discriminate].
    intros H. now rewrite (IH _ _ H).
Qed.

Section Span.

Variable f : ascii -> bool.

(** What stops a span: the end of the text, or a character outside the
    class. *)
Definition stops (b : string) : Prop :=
  match b with
  | EmptyString => True
  | String c _ => f c = false
  end.

Lemma span_inv (s : string) : forall a b,
  Str.span f s = (a, b) ->
  s = String.append a b /\ Str.all_chars f a = true /\ stops b.
Proof.
  induction s as [|c t IH]; intros a b; simpl.
  - intros [= <- <-]. repeat split.
  - destruct (f c) eqn:Hc.
    + destruct (Str.span f t) as [a' b'] eqn:E. intros [= <- <-].
      destruct (IH a' b' eq_refl) as (-> & Ha & Hb).
      simpl. rewrite Hc, Ha. repeat split. exact Hb.
    + intros [= <- <-]. repeat split. exact Hc.
Qed.


End Span.

Lemma not_dquote_false (c : ascii) : not_dquote c = false <-> c = Str.dquote.
Proof.
  unfold not_dquote. destruct (Ascii.eqb_spec c Str.dquote); simpl; split; congruence.
Qed.

Lemma all_not_dquote (s : string) :
  Str.all_chars not_dquote s = true <-> Str.contains Str.dquote s = false.
Proof.
  induction s as [|c t IH]; simpl; [tauto|].
  unfold not_dquote at 1. rewrite andb_true_iff, orb_false_iff, negb_true_iff. tauto.
Qed.

(** A successful attempt read back: the text is the literal, the group
    (not empty, without a double quote), a double quote, and the rest. *)
Lemma match_quoted_inv (lit s g r : string) :
  match_quoted lit s = Some (g, r) ->
  s = String.append lit (String.append g (String Str.dquote r))
  /\ Str.truthy g = true
  /\ Str.contains Str.dquote g = false.
Proof.
  unfold match_quoted.
  destruct (Str.strip_prefix lit s) as [r0|] eqn:E; [|discriminate].
  destruct (Str.span not_dquote r0) as [a b] eqn:E2.
  destruct a as [|c a]; [discriminate|]. destruct b as [|q b]; [discriminate|].
  intros [= <- <-].
  apply strip_prefix_inv in E. apply span_inv in E2 as (-> & Ha & Hb).
  simpl in Hb. apply not_dquote_false in Hb as ->.
  split; [assumption|]. split; [reflexivity|]. now apply all_not_dquote.
Qed.


(** What [re.search] finds is a declaration somewhere in the text. *)
Lemma search_quoted_inv (lit : string) (s : string) : forall g,
  search_quoted lit s = Some g ->
  Str.truthy g = true
  /\ Str.contains Str.dquote g = false
  /\ exists before after,
       s = String.append before
             (String.append lit (String.append g (String Str.dquote after))).
Proof.
  induction s as [|c t IH]; intros g; simpl.
  - destruct (match_quoted lit EmptyString) as [[g' r]|] eqn:E; [|discriminate].
    intros [= ->]. apply match_quoted_inv in E as (E & Hg & Hq).
    repeat split; try assumption. now exists EmptyString, r.
  - destruct (match_quoted lit (String c t)) as [[g' r]|] eqn:E.
    + intros [= ->]. apply match_quoted_inv in E as (E & Hg & Hq).
      repeat split; try assumption. now exists EmptyString, r.
    + intros H. destruct (IH g H) as (Hg & Hq & before & after & ->).
      repeat split; try assumption. now exists (String c before), after.
Qed.

(** One step of the substitution. *)
Lemma sub_quoted_step lit repl s :
  sub_quoted lit repl s =
  match match_quoted lit s with
  | Some (_, r) => String.append repl (sub_quoted lit repl r)
  | None =>
      match s with
      | EmptyString => EmptyString
      | String c t => String c (sub_quoted lit repl t)
      end
  end.
Proof.
  funelim (sub_quoted lit repl s);
    match goal with E : match_quoted _ _ = _ |- _ => rewrite E end; reflexivity.
Qed.

(** ** get_current_version *)

Lemma truthy_found (lit s g : string) :
  search_quoted lit s = Some g -> truthy (Some g) = true.
Proof. intros H. now apply search_quoted_inv in H as (Hg & _). Qed.

(** C3.  With both files readable: when both patterns match and the two
    values differ, the value of [setup.py] is returned and the warning
    naming both values is printed; when both match with one value, or
    exactly one pattern matches, the value found is returned and nothing
    is printed; when neither matches, [None] is returned. *)
Theorem get_current_version_cases
    (setup_file pyproject_file setup_content pyproject_content : string) (w : world) :
  files (w_fs w) !! setup_file = Some setup_content ->
  files (w_fs w) !! pyproject_file = Some pyproject_content ->
  let setup_version := search_quoted setup_lit setup_content in
  let pyproject_version := search_quoted pyproject_lit pyproject_content in
  (forall a b, setup_version = Some a -> pyproject_version = Some b -> a <> b ->
     get_current_version setup_file pyproject_file w
     = (Ok (Some a), add_log (Print (msg_version_conflict (Some a) (Some b))) w))
  /\ (forall a, setup_version = Some a -> pyproject_version = Some a ->
       get_current_version setup_file pyproject_file w = (Ok (Some a), w))
  /\ (forall a, setup_version = Some a -> pyproject_version = None ->
       get_current_version setup_file pyproject_file w = (Ok (Some a), w))
  /\ (forall b, setup_version = None -> pyproject_version = Some b ->
       get_current_version setup_file pyproject_file w = (Ok (Some b), w))
  /\ (setup_version = None -> pyproject_version = None ->
       get_current_version setup_file pyproject_file w = (Ok None, w)).
Proof.
  intros Hs Hp setup_version pyproject_version.
  assert (Hrun : get_current_version setup_file pyproject_file w =
    if (truthy setup_version && truthy pyproject_version
        && negb (opt_eqb setup_version pyproject_version))%bool
    then (Ok setup_version,
          add_log (Print (msg_version_conflict setup_version pyproject_version)) w)
    else (Ok (if truthy setup_version then setup_version else pyproject_version), w)).
  { unfold get_current_version, bind, read_file. rewrite Hs, Hp.
    fold setup_version pyproject_version.
    destruct (truthy setup_version && truthy pyproject_version
              && negb (opt_eqb setup_version pyproject_version))%bool; reflexivity. }
  rewrite Hrun. clear Hrun.
  unfold setup_version, pyproject_version. clear setup_version pyproject_version.
  repeat split.
  - intros a b Ha Hb Hne. rewrite Ha, Hb.
    rewrite (truthy_found _ _ _ Ha), (truthy_found _ _ _ Hb).
    simpl. apply String.eqb_neq in Hne. now rewrite Hne.
  - intros a Ha Hb. rewrite Ha, Hb.
    rewrite (truthy_found _ _ _ Ha).
    simpl. now rewrite String.eqb_refl.
  - intros a Ha Hb. rewrite Ha, Hb, (truthy_found _ _ _ Ha). reflexivity.
  - intros b Ha Hb. rewrite Ha, Hb. reflexivity.
  - intros Ha Hb. rewrite Ha, Hb. reflexivity.
Qed.

Lemma get_current_version_cases_witness :
  get_current_version Scenario.setup_file Scenario.pyproject_file
    (Scenario.release_world "1.2.3" "1.2.4" [] [])
  = (Ok (Some "1.2.3"%string),
     add_log (Print (msg_version_conflict (Some "1.2.3"%string) (Some "1.2.4"%string)))
       (Scenario.release_world "1.2.3" "1.2.4" [] [])).
Proof.
  refine (proj1 (get_current_version_cases Scenario.setup_file Scenario.pyproject_file
                   (Scenario.setup_py "1.2.3") (Scenario.pyproject_toml "1.2.4")
                   (Scenario.release_world "1.2.3" "1.2.4" [] []) _ _)
            "1.2.3"%string "1.2.4"%string _ _ _).
  - vm_compute. reflexivity.
  - vm_compute. reflexivity.
  - vm_compute. reflexivity.
  - vm_compute. reflexivity.
  - discriminate.
Defined.

(** ** The substitution applied twice *)

Lemma contains_app (c : ascii) (a b : string) :
  Str.contains c (String.append a b) = (Str.contains c a || Str.contains c b)%bool.
Proof.
  induction a as [|x a IH]; simpl; [reflexivity|].
  now rewrite IH, orb_assoc.
Qed.

Lemma declaration_app (lit version x : string) :
  String.append (declaration lit version) x
  = String.append lit (String.append version (String Str.dquote x)).
Proof. unfold declaration. now rewrite !append_assoc. Qed.

Lemma truthy_false (s : string) : Str.truthy s = false -> s = EmptyString.
Proof. destruct s; [reflexivity | discriminate]. Qed.

Section SubFacts.

(** The literal is [c0], [body'] and a double quote; its first character
    occurs nowhere else in it, and [body'] has no double quote. *)
Variable c0 : ascii.
Variable body' : string.

Local Abbreviation lit := (String c0 (String.append body' (Str.of_char Str.dquote))).
Local Abbreviation sub nv := (sub_quoted lit (declaration lit nv)).

Hypothesis c0_not_dquote : Ascii.eqb c0 Str.dquote = false.
Hypothesis c0_once : Str.contains c0 body' = false.
Hypothesis body_no_dquote : Str.contains Str.dquote body' = false.













End SubFacts.



(** *** Carriage returns *)




(** ** update_version_in_files *)


Lemma re_sub_literal (lit nv content : string) (w : world) :
  Str.contains backslash lit = false ->
  Str.contains backslash nv = false ->
  re_sub lit nv content w = (Ok (sub_quoted lit (declaration lit nv) content), w).
Proof.
  intros Hl Hn. unfold re_sub, has_escape, declaration.
  rewrite !contains_app, Hl, Hn. reflexivity.
Qed.






(** With one file given for both roles the second call can change it
    again even for a version without a double quote: what the second
    pattern wrote can complete a match of the first. *)
Lemma update_version_in_files_same_file :
  let path := "meta"%string in
  let content := String.append (declaration pyproject_lit "1")
                   (String.append "x" (Str.of_char Str.dquote)) in
  let w := set_fs {| files := <[path := content]> ∅; cwd := [] |}
             (Scenario.release_world "1" "1" [] []) in
  let w1 := snd (update_version_in_files path path "version=" w) in
  fst (update_version_in_files path path "version=" w) = Ok [path]
  /\ fst (update_version_in_files path path "version=" w1) = Ok [path].
Proof. split; vm_compute; reflexivity. Qed.

(** A carriage return in the new version does the same: the file is
    read back with a line feed in its place, the text differs from what
    the substitution gives, and the second call rewrites both files. *)
Example update_version_in_files_carriage_return :
  let nv := String.append "1.2" (String Str.cr "4") in
  let w := Scenario.release_world "1" "1" [] [] in
  let w1 := snd (update_version_in_files Scenario.setup_file Scenario.pyproject_file nv w) in
  Str.contains Str.dquote nv = false
  /\ Str.contains backslash nv = false
  /\ fst (update_version_in_files Scenario.setup_file Scenario.pyproject_file nv w1)
     = Ok [Scenario.setup_file; Scenario.pyproject_file].
Proof. repeat split; vm_compute; reflexivity. Qed.



(** ** build_package and upload_to_pypi *)

(** Once the command has started, whatever its exit status, neither
    function raises: status 0 gives [True], any other status gives the
    message and [False]. *)
Lemma build_package_exited (w : world) (code : Z) (f : fs) :
  w_tools w (build_argv (w_executable w)) (w_fs w) = (Exited code, f) ->
  build_package w =
  if code =? 0 then (Ok true, after_run (build_argv (w_executable w)) w)
  else (Ok false, add_log (Print msg_build_failed)
                    (after_run (build_argv (w_executable w)) w)).
Proof.
  intros H. unfold build_package, try_except, bind, subprocess_run, after_run, gets.
  rewrite H. destruct code; reflexivity.
Qed.


(** When the command cannot be started, the exception is not the one the
    handler names, and it leaves the function; nothing is printed. *)
Lemma upload_to_pypi_not_started (test : bool) (w : world) (e : exn_class) (f : fs) :
  w_tools w (upload_argv test) (w_fs w) = (NotStarted e, f) ->
  is_CalledProcessError e = false ->
  upload_to_pypi test w = (Raise e, after_run (upload_argv test) w).
Proof.
  intros H He. unfold upload_to_pypi, try_except, bind, subprocess_run, after_run.
  rewrite H. now rewrite He.
Qed.

(** C5, at the failing input: on a machine without [twine],
    [upload_to_pypi] raises [FileNotFoundError]; the only event is the
    attempt to run the command, and no message is printed. *)
Theorem upload_to_pypi_twine_missing :
  let w := Scenario.world_with Scenario.no_twine "1.2.4" "1.2.4" [] [] in
  fst (upload_to_pypi false w) = Raise FileNotFoundError
  /\ w_log (snd (upload_to_pypi false w))
     = [Run (upload_argv false) (NotStarted FileNotFoundError)].
Proof. split; vm_compute; reflexivity. Qed.

(** ** clean_build_directories *)

Lemma isdir_absent (name : string) (w : world) :
  lookup_entry name (cwd (w_fs w)) = None -> isdir name w = (Ok false, w).
Proof. intros H. unfold isdir. now rewrite H. Qed.

Lemma filter_none {A : Type} (f : A -> bool) (l : list A) :
  (forall x, In x l -> f x = false) -> List.filter f l = [].
Proof.
  induction l as [|x l IH]; [reflexivity|]. intros H. simpl.
  rewrite (H x (or_introl eq_refl)). apply IH. intros y Hy. apply H. now right.
Qed.

(** C9.  When the working directory has no entry named build, none named
    dist, and none whose name ends in .egg-info, [clean_build_directories]
    returns normally, prints nothing and leaves the world as it is. *)
Theorem clean_build_directories_nothing_to_clean (w : world) :
  lookup_entry "build" (cwd (w_fs w)) = None ->
  lookup_entry "dist" (cwd (w_fs w)) = None ->
  (forall name, In name (List.map fst (cwd (w_fs w))) ->
     Str.ends_with ".egg-info" name = false) ->
  clean_build_directories w = (Ok tt, w).
Proof.
  intros Hb Hd He. unfold clean_build_directories, clean_plain, bind.
  rewrite (isdir_absent _ _ Hb). cbv beta iota. unfold ret at 1.
  rewrite (isdir_absent _ _ Hd). cbv beta iota. unfold ret at 1.
  unfold glob_egg_info. rewrite filter_none; [reflexivity|].
  intros name Hn. now rewrite (He name Hn).
Qed.

Lemma clean_build_directories_nothing_to_clean_witness :
  clean_build_directories
    (Scenario.release_world "1.2.3" "1.2.3"
       [("src"%string, Dir []); ("README.md"%string, File "pkg")] [])
  = (Ok tt, Scenario.release_world "1.2.3" "1.2.3"
              [("src"%string, Dir []); ("README.md"%string, File "pkg")] []).
Proof.
  apply clean_build_directories_nothing_to_clean.
  - reflexivity.
  - reflexivity.
  - intros name [<-|[<-|[]]]; reflexivity.
Defined.

(** ** check_egg_info_version *)

Lemma lookup_entry_in (name : string) (entries : list (string * node)) (x : node) :
  lookup_entry name entries = Some x -> In (name, x) entries.
Proof.
  induction entries as [|[n y] rest IH]; simpl; [discriminate|].
  destruct (String.eqb_spec n name) as [->|].
  - intros [= ->]. now left.
  - intros H. right. now apply IH.
Qed.

Lemma pkg_info_node_dir (egg_dir : string) (entries : list (string * node)) (x : node) :
  pkg_info_node egg_dir entries = Some x ->
  exists inner, In (egg_dir, Dir inner) entries.
Proof.
  unfold pkg_info_node.
  destruct (lookup_entry egg_dir entries) as [[c|inner]|] eqn:E; try discriminate.
  intros _. exists inner. now apply lookup_entry_in.
Qed.

Lemma check_egg_dirs_pass (new_version : string) (w : world) (pre rest : list string) :
  Forall (passes new_version (cwd (w_fs w))) pre ->
  check_egg_dirs new_version (pre ++ rest) w = check_egg_dirs new_version rest w.
Proof.
  induction pre as [|d pre IH]; [reflexivity|].
  intros H. apply Forall_cons_iff in H as [Hd Hpre].
  simpl. unfold bind at 1, exists_pkg_info. unfold passes in Hd.
  destruct (pkg_info_node d (cwd (w_fs w))) as [[content|inner]|] eqn:E;
    [| contradiction | now apply IH].
  unfold bind, read_pkg_info. rewrite E.
  destruct (search_version content) as [found|]; [|now apply IH].
  subst found. rewrite String.eqb_refl. now apply IH.
Qed.

(** The first entry whose metadata states another version ends the loop:
    the warning is printed and [False] returned, whatever follows. *)
Lemma check_egg_dirs_mismatch
    (new_version : string) (w : world) (pre rest : list string)
    (d content found : string) :
  Forall (passes new_version (cwd (w_fs w))) pre ->
  pkg_info_node d (cwd (w_fs w)) = Some (File content) ->
  search_version content = Some found ->
  found <> new_version ->
  check_egg_dirs new_version (pre ++ d :: rest) w
  = (Ok false, add_log (Print (msg_egg_mismatch (pkg_info_path d) found new_version)) w).
Proof.
  intros Hpre Hd Hv Hne. rewrite (check_egg_dirs_pass _ _ _ _ Hpre).
  cbn [check_egg_dirs]. unfold bind, exists_pkg_info, read_pkg_info.
  rewrite Hd. cbv beta iota. rewrite Hd. cbv beta iota. rewrite Hv.
  apply String.eqb_neq in Hne. now rewrite Hne.
Qed.

(** C10.  When no directory of the working directory has a name ending
    in .egg-info, [check_egg_info_version] returns [True] for every
    expected version, printing nothing.  And when, in listing order, the
    entries before [d] pass and the metadata of [d] states another
    version, it prints the warning for [d] and returns [False]; the result
    does not depend on the entries listed after [d], which are not
    read. *)
Theorem check_egg_info_version_cases (new_version : string) (w : world) :
  ((forall name inner, In (name, Dir inner) (cwd (w_fs w)) ->
      Str.ends_with ".egg-info" name = false) ->
   check_egg_info_version new_version w = (Ok true, w))
  /\ (forall pre d rest content found,
        List.filter (Str.ends_with ".egg-info") (List.map fst (cwd (w_fs w)))
        = pre ++ d :: rest ->
        Forall (passes new_version (cwd (w_fs w))) pre ->
        pkg_info_node d (cwd (w_fs w)) = Some (File content) ->
        search_version content = Some found ->
        found <> new_version ->
        check_egg_info_version new_version w
        = (Ok false,
           add_log (Print (msg_egg_mismatch (pkg_info_path d) found new_version)) w)).
Proof.
  split.
  - intros Hnone. unfold check_egg_info_version, bind, listdir.
    rewrite <- (List.app_nil_r (List.filter _ _)).
    rewrite check_egg_dirs_pass; [reflexivity|].
    apply List.Forall_forall. intros name Hin. apply filter_In in Hin as [_ Hegg].
    unfold passes.
    destruct (pkg_info_node name (cwd (w_fs w))) as [x|] eqn:E; [|exact I].
    apply pkg_info_node_dir in E as [inner Hin].
    rewrite (Hnone _ _ Hin) in Hegg. discriminate.
  - intros pre d rest content found Hlist Hpre Hd Hv Hne.
    unfold check_egg_info_version, bind, listdir. rewrite Hlist.
    now apply (check_egg_dirs_mismatch _ _ _ _ _ content).
Qed.

Lemma check_egg_info_version_cases_witness :
  check_egg_info_version "1.2.4"
    (Scenario.release_world "1.2.4" "1.2.4" [("src"%string, Dir [])] [])
  = (Ok true, Scenario.release_world "1.2.4" "1.2.4" [("src"%string, Dir [])] [])
  /\ check_egg_info_version "1.2.4"
       (Scenario.release_world "1.2.4" "1.2.4"
          [Scenario.egg_info "1.2.3"; ("old.egg-info"%string, Dir [("PKG-INFO"%string, Dir [])])] [])
     = (Ok false,
        add_log (Print (msg_egg_mismatch (pkg_info_path "pkg.egg-info") "1.2.3" "1.2.4"))
          (Scenario.release_world "1.2.4" "1.2.4"
             [Scenario.egg_info "1.2.3"; ("old.egg-info"%string, Dir [("PKG-INFO"%string, Dir [])])] [])).
Proof.
  split.
  - apply (proj1 (check_egg_info_version_cases _ _)).
    intros name inner [[= <- <-]|[]]. reflexivity.
  - apply (proj2 (check_egg_info_version_cases _ _) []
             "pkg.egg-info"%string ["old.egg-info"%string]
             (cat ["Name: pkg"; newline; "Version: "; "1.2.3"]%string) "1.2.3"%string).
    + reflexivity.
    + constructor.
    + reflexivity.
    + vm_compute. reflexivity.
    + discriminate.
Defined.

(** ** The plug-in entry point *)

Section LoadFacts.

Variable host : Type.
Variable write_error : Loader.event -> option Loader.raised.

(** C8, as stated, fails for an exception that derives from
    [BaseException] only: [except Exception] does not catch
    [SystemExit], which leaves [load]. *)
Lemma load_system_exit_escapes :
  let e := Loader.Exc SystemExit (Loader.Text "1") in
  Loader.load unit (fun _ => None) (Some (fun h => (Loader.Raised e, h))) tt
  = (Loader.Raised e, tt, []).
Proof. reflexivity. Qed.

(** It fails also for an exception that derives from [Exception] but
    cannot be formatted: the handler evaluates the f-string, [__str__]
    raises, and that exception leaves [load] from inside the handler. *)
Example load_str_raises :
  let inner := Loader.Exc (OtherException "RuntimeError") (Loader.Text "no text") in
  let e := Loader.Exc (OtherException "Bad") (Loader.StrRaises inner) in
  is_Exception (Loader.exc_class e) = true
  /\ Loader.load unit (fun _ => None) (Some (fun h => (Loader.Raised e, h))) tt
     = (Loader.Raised inner, tt, []).
Proof. split; reflexivity. Qed.

(** And for a line that cannot be written. *)
Example load_write_fails :
  let x := Loader.Exc (OtherException "UnicodeEncodeError") (Loader.Text "codec") in
  let e := Loader.Exc ValueError (Loader.Text "no key") in
  Loader.load unit
    (fun ev => match ev with Loader.Print _ => Some x | Loader.PrintExc _ => None end)
    (Some (fun h => (Loader.Raised e, h))) tt
  = (Loader.Raised x, tt, []).
Proof. reflexivity. Qed.

(** C8, amended.  When every exception the feature module raises derives
    from [Exception], has a text, and the line and the traceback can be
    written, the entry point returns normally: the exception is caught,
    the message with its text and then its traceback are written, and it
    goes no further; a normal return writes nothing; and without a
    feature module the entry point does nothing. *)
Theorem load_returns_normally
    (gpt_load_plugin : option (Loader.plugin host)) (h : host) :
  (forall f e h', gpt_load_plugin = Some f -> f h = (Loader.Raised e, h') ->
     is_Exception (Loader.exc_class e) = true
     /\ exists text,
          Loader.exc_str e = Loader.Text text
          /\ write_error (Loader.Print (Loader.msg_load_failed text)) = None
          /\ write_error (Loader.PrintExc e) = None) ->
  fst (fst (Loader.load host write_error gpt_load_plugin h)) = Loader.Returned
  /\ (forall f e h' text,
        gpt_load_plugin = Some f -> f h = (Loader.Raised e, h') ->
        Loader.exc_str e = Loader.Text text ->
        Loader.load host write_error gpt_load_plugin h
        = (Loader.Returned, h',
           [Loader.Print (Loader.msg_load_failed text); Loader.PrintExc e]))
  /\ (forall f h', gpt_load_plugin = Some f -> f h = (Loader.Returned, h') ->
       Loader.load host write_error gpt_load_plugin h = (Loader.Returned, h', []))
  /\ (gpt_load_plugin = None ->
       Loader.load host write_error gpt_load_plugin h = (Loader.Returned, h, [])).
Proof.
  intros Hexc. unfold Loader.load.
  destruct gpt_load_plugin as [f|]; [|repeat split; try discriminate].
  destruct (f h) as [[|e] h'] eqn:E.
  - repeat split; try discriminate.
    + intros f0 e0 h0 text [= <-]. rewrite E. discriminate.
    + intros f0 h0 [= <-]. rewrite E. now intros [= <-].
  - destruct (Hexc f e h' eq_refl E) as (Hc & text & Hs & Hw1 & Hw2).
    rewrite Hc, Hs. cbv zeta. rewrite Hw1, Hw2.
    repeat split; try discriminate.
    + intros f0 e0 h0 text0 [= <-]. rewrite E. intros [= <- <-] Hs0.
      rewrite Hs in Hs0. now injection Hs0 as <-.
    + intros f0 h0 [= <-]. rewrite E. discriminate.
Qed.

End LoadFacts.

Lemma load_returns_normally_witness :
  let e := Loader.Exc ValueError (Loader.Text "no key") in
  Loader.load nat (fun _ => None) (Some (fun h => (Loader.Raised e, S h))) 0%nat
  = (Loader.Returned, 1%nat,
     [Loader.Print (Loader.msg_load_failed "no key"); Loader.PrintExc e]).
Proof.
  intros e.
  refine (proj1 (proj2 (load_returns_normally nat (fun _ => None)
            (Some (fun h => (Loader.Raised e, S h))) 0%nat _))
            _ e 1%nat "no key"%string eq_refl eq_refl eq_refl).
  intros f e0 h' [= <-] [= <- _]. split; [reflexivity|].
  exists "no key"%string. repeat split.
Defined.


(** ** The events of a run *)

Section Emits.

Variable P : event -> Prop.

Lemma emits_silent {A : Type} (m : M A) :
  (forall w r w', m w = (r, w') -> w_log w' = w_log w) -> emits P m.
Proof.
  intros H w r w' E. exists []. split; [|constructor].
  rewrite (H w r w' E). now rewrite List.app_nil_r.
Qed.

Lemma emits_ret {A : Type} (a : A) : emits P (ret a).
Proof. apply emits_silent. now intros w r w' [= <- <-]. Qed.

Lemma emits_lift {A : Type} (x : result A) : emits P (lift x).
Proof. apply emits_silent. now intros w r w' [= <- <-]. Qed.

Lemma emits_gets {A : Type} (f : world -> A) : emits P (gets f).
Proof. apply emits_silent. now intros w r w' [= <- <-]. Qed.

Lemma emits_bind {A B : Type} (m : M A) (k : A -> M B) :
  emits P m -> (forall a, emits P (k a)) -> emits P (bind m k).
Proof.
  intros Hm Hk w r w' E. unfold bind in E.
  destruct (m w) as [[a|e] w1] eqn:Em.
  - destruct (Hm _ _ _ Em) as (evs1 & E1 & F1).
    destruct (Hk a _ _ _ E) as (evs2 & E2 & F2).
    exists (evs1 ++ evs2). split; [|now apply Forall_app].
    now rewrite E2, E1, List.app_assoc.
  - injection E as <- <-. exact (Hm _ _ _ Em).
Qed.

Lemma emits_try_except {A : Type} (body handler : M A) (catches : exn_class -> bool) :
  emits P body -> emits P handler -> emits P (try_except body catches handler).
Proof.
  intros Hb Hh w r w' E. unfold try_except in E.
  destruct (body w) as [[a|e] w1] eqn:Eb.
  - injection E as <- <-. exact (Hb _ _ _ Eb).
  - destruct (Hb _ _ _ Eb) as (evs1 & E1 & F1).
    destruct (catches e).
    + destruct (Hh _ _ _ E) as (evs2 & E2 & F2).
      exists (evs1 ++ evs2). split; [|now apply Forall_app].
      now rewrite E2, E1, List.app_assoc.
    + injection E as <- <-. now exists evs1.
Qed.

Lemma emits_for_each {A : Type} (l : list A) (body : A -> M unit) :
  (forall x, emits P (body x)) -> emits P (for_each l body).
Proof.
  intros Hb. induction l as [|x l IH]; simpl.
  - apply emits_ret.
  - apply emits_bind; [apply Hb | intros _; exact IH].
Qed.

Lemma emits_one {A : Type} (m : M A) (e : event) :
  P e -> (forall w r w', m w = (r, w') -> w_log w' = w_log w ++ [e]) -> emits P m.
Proof.
  intros He H w r w' E. exists [e]. split; [exact (H _ _ _ E) | now constructor].
Qed.

Lemma emits_print (text : string) : P (Print text) -> emits P (print text).
Proof. intros H. apply (emits_one _ _ H). now intros w r w' [= <- <-]. Qed.

Lemma emits_input (prompt : string) :
  (forall answer, P (Input prompt answer)) -> emits P (input prompt).
Proof.
  intros H w r w' E. unfold input in E.
  destruct (w_stdin w) as [|line rest]; injection E as <- <-;
    (eexists [_]; split; [reflexivity | constructor; [apply H | constructor]]).
Qed.

Lemma emits_subprocess_run (argv : list string) :
  (forall outcome, P (Run argv outcome)) -> emits P (subprocess_run argv).
Proof.
  intros H w r w' E. unfold subprocess_run in E.
  destruct (w_tools w argv (w_fs w)) as [p f].
  exists [Run argv p]. split; [|constructor; [apply H | constructor]].
  destruct p as [[| |]|]; injection E as <- <-; reflexivity.
Qed.

Lemma emits_read_file (path : string) : emits P (read_file path).
Proof.
  apply emits_silent. intros w r w'. unfold read_file.
  destruct (files (w_fs w) !! path); now intros [= <- <-].
Qed.

Lemma emits_write_file (path content : string) : emits P (write_file path content).
Proof. apply emits_silent. now intros w r w' [= <- <-]. Qed.

Lemma emits_path_exists (path : string) : emits P (path_exists path).
Proof. apply emits_silent. now intros w r w' [= <- <-]. Qed.

Lemma emits_isdir (name : string) : emits P (isdir name).
Proof. apply emits_silent. now intros w r w' [= <- <-]. Qed.

Lemma emits_exists_entry (name : string) : emits P (exists_entry name).
Proof. apply emits_silent. now intros w r w' [= <- <-]. Qed.

Lemma emits_rmtree (name : string) : emits P (rmtree name).
Proof.
  apply emits_silent. intros w r w'. unfold rmtree.
  destruct (lookup_entry name (cwd (w_fs w))) as [[c|l]|]; now intros [= <- <-].
Qed.

Lemma emits_os_remove (name : string) : emits P (os_remove name).
Proof.
  apply emits_silent. intros w r w'. unfold os_remove.
  destruct (lookup_entry name (cwd (w_fs w))) as [[c|l]|]; now intros [= <- <-].
Qed.

Lemma emits_listdir : emits P listdir.
Proof. apply emits_silent. now intros w r w' [= <- <-]. Qed.

Lemma emits_glob_egg_info : emits P glob_egg_info.
Proof. apply emits_silent. now intros w r w' [= <- <-]. Qed.

Lemma emits_exists_pkg_info (egg_dir : string) : emits P (exists_pkg_info egg_dir).
Proof. apply emits_silent. now intros w r w' [= <- <-]. Qed.

Lemma emits_read_pkg_info (egg_dir : string) : emits P (read_pkg_info egg_dir).
Proof.
  apply emits_silent. intros w r w'. unfold read_pkg_info.
  destruct (pkg_info_node egg_dir (cwd (w_fs w))) as [[c|l]|]; now intros [= <- <-].
Qed.

Lemma emits_re_sub (lit nv content : string) : emits P (re_sub lit nv content).
Proof.
  unfold re_sub. destruct (has_escape _); [|apply emits_ret].
  apply emits_silent. now intros w r w' [= <- <-].
Qed.

Hypothesis prints : forall text, P (Print text).

(** One step of a proof that a call emits only [P] events. *)
Ltac emits_step :=
  match goal with
  | |- emits P (bind _ _) => apply emits_bind; [|intros ?]
  | |- emits P (ret _) => apply emits_ret
  | |- emits P (lift _) => apply emits_lift
  | |- emits P (gets _) => apply emits_gets
  | |- emits P (print _) => apply emits_print, prints
  | |- emits P (read_file _) => apply emits_read_file
  | |- emits P (write_file _ _) => apply emits_write_file
  | |- emits P (path_exists _) => apply emits_path_exists
  | |- emits P (isdir _) => apply emits_isdir
  | |- emits P (exists_entry _) => apply emits_exists_entry
  | |- emits P (rmtree _) => apply emits_rmtree
  | |- emits P (os_remove _) => apply emits_os_remove
  | |- emits P listdir => apply emits_listdir
  | |- emits P glob_egg_info => apply emits_glob_egg_info
  | |- emits P (exists_pkg_info _) => apply emits_exists_pkg_info
  | |- emits P (read_pkg_info _) => apply emits_read_pkg_info
  | |- emits P (re_sub _ _ _) => apply emits_re_sub
  | |- emits P (for_each _ _) => apply emits_for_each; intros ?
  | |- emits P (if ?b then _ else _) => destruct b
  | |- emits P (match ?x with _ => _ end) => destruct x
  end.

Lemma emits_get_current_version (setup_file pyproject_file : string) :
  emits P (get_current_version setup_file pyproject_file).
Proof. unfold get_current_version. repeat emits_step. Qed.

Lemma emits_update_version_in_files (setup_file pyproject_file nv : string) :
  emits P (update_version_in_files setup_file pyproject_file nv).
Proof. unfold update_version_in_files. repeat emits_step. Qed.

Lemma emits_clean_build_directories : emits P clean_build_directories.
Proof.
  unfold clean_build_directories, clean_plain, clean_item. repeat emits_step.
Qed.

Lemma emits_check_egg_dirs (nv : string) (egg_dirs : list string) :
  emits P (check_egg_dirs nv egg_dirs).
Proof.
  induction egg_dirs as [|d rest IH]; simpl; [apply emits_ret|].
  repeat first [exact IH | emits_step].
Qed.

Lemma emits_check_egg_info_version (nv : string) :
  emits P (check_egg_info_version nv).
Proof.
  unfold check_egg_info_version. emits_step; [emits_step | apply emits_check_egg_dirs].
Qed.

Lemma reaches_emits (m : M Z) : emits P m -> reaches_publish P m.
Proof. intros H w r w' E. left. exact (H _ _ _ E). Qed.

Lemma reaches_here (nv : string) (t : bool) : reaches_publish P (publish nv t).
Proof.
  intros w r w' E. right. exists w, nv, t, []. repeat split.
  - now rewrite List.app_nil_r.
  - constructor.
  - exact E.
Qed.

Lemma reaches_bind {A : Type} (m : M A) (k : A -> M Z) :
  emits P m -> (forall a, reaches_publish P (k a)) -> reaches_publish P (bind m k).
Proof.
  intros Hm Hk w r w' E. unfold bind in E.
  destruct (m w) as [[a|e] w1] eqn:Em;
    destruct (Hm _ _ _ Em) as (evs1 & E1 & F1).
  - destruct (Hk a _ _ _ E) as [(evs2 & E2 & F2)|(w2 & nv & t & evs2 & E2 & F2 & Hp)].
    + left. exists (evs1 ++ evs2). split; [|now apply Forall_app].
      now rewrite E2, E1, List.app_assoc.
    + right. exists w2, nv, t, (evs1 ++ evs2).
      split; [|split; [now apply Forall_app | exact Hp]].
      now rewrite E2, E1, List.app_assoc.
  - injection E as <- <-. left. now exists evs1.
Qed.

Hypothesis asks : forall prompt answer, prompt <> prompt_retry -> P (Input prompt answer).

Lemma prompt_confirm_not_retry (cv : option string) (nv : string) :
  prompt_confirm cv nv <> prompt_retry.
Proof. unfold prompt_confirm, prompt_retry, cat. simpl. discriminate. Qed.

Lemma prompt_test_pypi_not_retry : prompt_test_pypi <> prompt_retry.
Proof. discriminate. Qed.

(** [main] up to the build adds only [P] events. *)
Lemma main_reaches_publish : reaches_publish P main.
Proof.
  unfold main.
  apply reaches_bind; [apply emits_gets | intros current_dir].
  apply reaches_bind; [apply emits_path_exists | intros setup_exists].
  apply reaches_bind; [apply emits_path_exists | intros pyproject_exists].
  destruct (negb setup_exists || negb pyproject_exists)%bool.
  { apply reaches_emits. repeat emits_step. }
  apply reaches_bind; [apply emits_get_current_version | intros current_version].
  apply reaches_bind; [apply emits_print, prints | intros _].
  apply reaches_bind; [apply emits_lift | intros new_version].
  apply reaches_bind; [apply emits_print, prints | intros _].
  apply reaches_bind;
    [apply emits_input; intros; apply asks, prompt_confirm_not_retry | intros answer].
  destruct (negb (String.eqb (Str.lower answer) "y")).
  { apply reaches_emits. repeat emits_step. }
  apply reaches_bind; [apply emits_print, prints | intros _].
  apply reaches_bind; [apply emits_clean_build_directories | intros _].
  apply reaches_bind; [apply emits_update_version_in_files | intros updated_files].
  destruct updated_files as [|file files].
  { apply reaches_emits. repeat emits_step. }
  apply reaches_bind; [apply emits_print, prints | intros _].
  apply reaches_bind; [apply emits_for_each; intros; apply emits_print, prints | intros _].
  apply reaches_bind;
    [apply emits_input; intros; apply asks, prompt_test_pypi_not_retry | intros answer2].
  apply reaches_bind; [apply emits_print, prints | intros _].
  exact (reaches_here new_version (String.eqb (Str.lower answer2) "y")).
Qed.

End Emits.

(** ** main from the build on *)

Lemma after_run_log (argv : list string) (w : world) (p : proc) (f : fs) :
  w_tools w argv (w_fs w) = (p, f) ->
  w_log (after_run argv w) = w_log w ++ [Run argv p].
Proof. intros H. unfold after_run. now rewrite H. Qed.

(** The three ways the build step can go. *)
Lemma publish_cases (nv : string) (t : bool) (w1 : world) (r : result Z) (w' : world) :
  publish nv t w1 = (r, w') ->
  let argv := build_argv (w_executable w1) in
  let w2 := after_run argv w1 in
  (exists f, w_tools w1 argv (w_fs w1) = (Exited 0, f)
             /\ after_build nv t w2 = (r, w'))
  \/ (exists code f, w_tools w1 argv (w_fs w1) = (Exited code, f)
                     /\ code <> 0 /\ r = Ok 1
                     /\ w' = add_log (Print msg_build_failed) w2)
  \/ (exists e f, w_tools w1 argv (w_fs w1) = (NotStarted e, f)
                  /\ w_log w' = w_log w2
                       ++ (if is_CalledProcessError e then [Print msg_build_failed] else [])).
Proof.
  intros H argv w2. unfold publish, bind in H.
  destruct (w_tools w1 argv (w_fs w1)) as [[code|e] f] eqn:Et.
  - rewrite (build_package_exited w1 code f Et) in H. fold argv w2 in H.
    destruct (Z.eqb_spec code 0) as [->|Hc].
    + left. exists f. split; [reflexivity | exact H].
    + right; left. exists code, f. injection H as <- <-. repeat split. exact Hc.
  - right; right. exists e, f. split; [reflexivity|].
    unfold build_package, try_except, bind, subprocess_run, gets in H.
    fold argv in H. rewrite Et in H.
    unfold w2, after_run. fold argv. rewrite Et.
    destruct (is_CalledProcessError e); injection H as <- <-; simpl.
    + now rewrite <- List.app_assoc.
    + now rewrite List.app_nil_r.
Qed.

Lemma build_argv_not_upload (executable : string) (test : bool) :
  build_argv executable <> upload_argv test.
Proof. destruct test; discriminate. Qed.

Lemma emits_upload_to_pypi (P : event -> Prop) (test : bool) :
  (forall text, P (Print text)) ->
  (forall outcome, P (Run (upload_argv test) outcome)) ->
  emits P (upload_to_pypi test).
Proof.
  intros Hp Hr. unfold upload_to_pypi.
  apply emits_try_except.
  - apply emits_bind; [now apply emits_subprocess_run | intros _; apply emits_ret].
  - apply emits_bind; [apply emits_print, Hp | intros _; apply emits_ret].
Qed.

Lemma emits_finish (P : event -> Prop) (nv : string) (test : bool) :
  (forall text, P (Print text)) ->
  (forall outcome, P (Run (upload_argv test) outcome)) ->
  emits P (finish nv test).
Proof.
  intros Hp Hr. unfold finish.
  apply emits_bind; [apply emits_print, Hp | intros _].
  apply emits_bind; [now apply emits_upload_to_pypi | intros uploaded].
  destruct (negb uploaded); [apply emits_ret|].
  apply emits_bind; [apply emits_print, Hp | intros _; apply emits_ret].
Qed.

Lemma emits_ask_retry (P : event -> Prop) :
  (forall text, P (Print text)) ->
  (forall answer, P (Input prompt_retry answer)) ->
  emits P ask_retry.
Proof.
  intros Hp Hi. unfold ask_retry.
  apply emits_bind; [now apply emits_input | intros answer].
  destruct (negb _); [|apply emits_ret].
  apply emits_bind; [apply emits_print, Hp | intros _; apply emits_ret].
Qed.

Lemma emits_after_build (nv : string) (test : bool) : emits late (after_build nv test).
Proof.
  unfold after_build.
  apply emits_bind; [now apply emits_check_egg_info_version | intros consistent].
  apply emits_bind.
  - destruct (negb consistent); [now apply emits_ask_retry | apply emits_ret].
  - intros proceed. destruct (negb proceed); [apply emits_ret|].
    apply emits_finish; [easy|]. intros outcome. now exists test.
Qed.

Lemma early_not_failure (e : event) : early e -> ~ build_failure e.
Proof. intros He (exe & code & -> & _). exact He. Qed.

Lemma early_not_upload (e : event) : early e -> ~ upload_run e.
Proof. intros He (test & outcome & ->). exact He. Qed.

Lemma late_not_failure (e : event) : late e -> ~ build_failure e.
Proof.
  intros He (exe & code & -> & _). destruct He as [test He].
  exact (build_argv_not_upload _ _ He).
Qed.

Lemma build_not_upload (executable : string) (p : proc) :
  ~ upload_run (Run (build_argv executable) p).
Proof.
  intros (test & outcome & [= H _]). exact (build_argv_not_upload _ _ H).
Qed.

Lemma print_not_upload (text : string) : ~ upload_run (Print text).
Proof. intros (test & outcome & [=]). Qed.

Lemma early_asks (prompt : string) (answer : option string) :
  prompt <> prompt_retry -> early (Input prompt answer).
Proof. easy. Qed.

(** C6.  In a run of [main] from an empty log in which the build ran and
    exited with a status other than 0, the failure message is printed,
    [main] returns 1, and the upload tool is never run. *)
Theorem main_build_failure (w : world) (r : result Z) (w' : world) :
  w_log w = [] ->
  main w = (r, w') ->
  Exists build_failure (w_log w') ->
  r = Ok 1
  /\ In (Print msg_build_failed) (w_log w')
  /\ Forall (fun e => ~ upload_run e) (w_log w').
Proof.
  intros Hlog Hmain Hfail.
  destruct (main_reaches_publish early (fun _ => I) early_asks w r w' Hmain)
    as [(evs & E & F)|(w1 & nv & t & evs & E1 & F1 & Hp)]; rewrite Hlog in *; simpl in *.
  - exfalso. rewrite E in Hfail. apply List.Exists_exists in Hfail as (e & Hin & He).
    rewrite List.Forall_forall in F. exact (early_not_failure e (F e Hin) He).
  - apply publish_cases in Hp
      as [(f & Et & Hafter)|[(code & f & Et & Hc & -> & ->)|(e & f & Et & Elog)]].
    + exfalso.
      destruct (emits_after_build nv t _ _ _ Hafter) as (evs2 & E2 & F2).
      rewrite (after_run_log _ _ _ _ Et), E1 in E2. rewrite E2 in Hfail.
      rewrite !Exists_app in Hfail. destruct Hfail as [[Hfail|Hfail]|Hfail].
      * apply List.Exists_exists in Hfail as (e & Hin & He).
        rewrite List.Forall_forall in F1. exact (early_not_failure e (F1 e Hin) He).
      * apply Exists_cons in Hfail as [(exe & code & [= _ <-] & Hc)|Hfail];
          [now apply Hc | now apply Exists_nil in Hfail].
      * apply List.Exists_exists in Hfail as (e & Hin & He).
        rewrite List.Forall_forall in F2. exact (late_not_failure e (F2 e Hin) He).
    + split; [reflexivity|].
      assert (El : w_log (add_log (Print msg_build_failed)
                            (after_run (build_argv (w_executable w1)) w1))
                   = evs ++ [Run (build_argv (w_executable w1)) (Exited code);
                             Print msg_build_failed]).
      { simpl. rewrite (after_run_log _ _ _ _ Et), E1. now rewrite <- List.app_assoc. }
      rewrite El. split.
      * apply in_or_app. right. right. now left.
      * apply Forall_app. split.
        -- eapply List.Forall_impl; [|exact F1]. exact early_not_upload.
        -- repeat constructor; [apply build_not_upload | apply print_not_upload].
    + exfalso. rewrite (after_run_log _ _ _ _ Et), E1 in Elog. rewrite Elog in Hfail.
      rewrite !Exists_app in Hfail. destruct Hfail as [[Hfail|Hfail]|Hfail].
      * apply List.Exists_exists in Hfail as (e0 & Hin & He).
        rewrite List.Forall_forall in F1. exact (early_not_failure e0 (F1 e0 Hin) He).
      * apply Exists_cons in Hfail as [(exe & code & [=] & _)|Hfail].
        now apply Exists_nil in Hfail.
      * destruct (is_CalledProcessError e).
        -- apply Exists_cons in Hfail as [(exe & code & [=] & _)|Hfail].
           now apply Exists_nil in Hfail.
        -- now apply Exists_nil in Hfail.
Qed.

Lemma main_build_failure_witness :
  let w := Scenario.world_with Scenario.build_fails "1.2.3" "1.2.3" [] ["y"; "n"]%string in
  fst (main w) = Ok 1
  /\ In (Print msg_build_failed) (w_log (snd (main w)))
  /\ Forall (fun e => ~ upload_run e) (w_log (snd (main w))).
Proof.
  intros w. apply (main_build_failure w).
  - reflexivity.
  - apply surjective_pairing.
  - apply List.Exists_exists.
    exists (Run (build_argv "/usr/bin/python3") (Exited 1)). split.
    + vm_compute. repeat first [left; reflexivity | right].
    + exists "/usr/bin/python3"%string, 1. split; [reflexivity | discriminate].
Defined.

(** ** main after a mismatch *)







(** *** The version main computed, at the build step *)














(** ** The model on concrete inputs *)

Example int_plain : PyInt.int "007" = Some 7.
Proof. reflexivity. Qed.

Example int_spaces_and_sign : PyInt.int " -12 " = Some (-12).
Proof. reflexivity. Qed.

Example int_underscore : PyInt.int "1_000" = Some 1000.
Proof. reflexivity. Qed.

Example int_double_underscore : PyInt.int "1__0" = None.
Proof. reflexivity. Qed.

Example int_letters : PyInt.int "4rc1" = None.
Proof. reflexivity. Qed.

Example increment_leading_zero :
  increment_version (Some "1.2.09"%string) = Ok "1.2.10"%string.
Proof. reflexivity. Qed.

Example increment_four_parts :
  increment_version (Some "1.2.3.4"%string) = Ok "1.2.3.5"%string.
Proof. reflexivity. Qed.

Example increment_not_a_number :
  increment_version (Some "1.2.3rc1"%string) = Raise ValueError.
Proof. reflexivity. Qed.

Example increment_trailing_dot :
  increment_version (Some "1."%string) = Ok "1..1"%string.
Proof. reflexivity. Qed.

(** The scenario of the specification: both files declare 1.2.3; the
    current version is 1.2.3 and the new one 1.2.4. *)
Example scenario_versions :
  let w := Scenario.release_world "1.2.3" "1.2.3" [] [] in
  get_current_version Scenario.setup_file Scenario.pyproject_file w
  = (Ok (Some "1.2.3"%string), w)
  /\ increment_version (Some "1.2.3"%string) = Ok "1.2.4"%string.
Proof. split; vm_compute; reflexivity. Qed.

(** A whole run that succeeds: confirmed, production index, build and
    upload exit with status 0. *)
Example scenario_success :
  let w := Scenario.release_world "1.2.3" "1.2.3" [("dist"%string, Dir [])]
             ["Y"; "n"]%string in
  fst (main w) = Ok 0
  /\ List.filter (fun e => match e with Run _ _ => true | _ => false end)
       (w_log (snd (main w)))
     = [Run (build_argv "/usr/bin/python3") (Exited 0);
        Run (upload_argv false) (Exited 0)]
  /\ files (w_fs (snd (main w))) !! Scenario.setup_file
     = Some (Scenario.setup_py "1.2.4")
  /\ cwd (w_fs (snd (main w))) = [].
Proof. repeat split; vm_compute; reflexivity. Qed.

(** A run the user cancels at the first question changes nothing. *)
Example scenario_cancelled :
  let w := Scenario.release_world "1.2.3" "1.2.3" [("dist"%string, Dir [])]
             ["no"]%string in
  fst (main w) = Ok 0
  /\ w_fs (snd (main w)) = w_fs w.
Proof. repeat split; vm_compute; reflexivity. Qed.

(** * Further properties *)

Import More.

(** ** The exit code of main *)

Section Returns.

Context {A : Type} (Q : A -> Prop).

Lemma returns_ret (a : A) : Q a -> returns Q (ret a).
Proof. intros H w r w' [= <- <-]. exact H. Qed.

Lemma returns_bind {B : Type} (m : M B) (k : B -> M A) :
  (forall b, returns Q (k b)) -> returns Q (bind m k).
Proof.
  intros Hk w r w' E. unfold bind in E.
  destruct (m w) as [[b|e] w1].
  - exact (Hk b _ _ _ E).
  - now injection E as <- <-.
Qed.

End Returns.

(** When [main] returns, it returns 0 or 1. *)
Theorem main_exit_code (w : world) (code : Z) (w' : world) :
  main w = (Ok code, w') -> code = 0 \/ code = 1.
Proof.
  intros H.
  assert (R : returns (fun c => c = 0 \/ c = 1) main).
  { unfold main.
    repeat first
      [ apply returns_ret; tauto
      | apply returns_bind; intros ?
      | match goal with
        | |- returns _ (if ?b then _ else _) => destruct b
        | |- returns _ (match ?x with _ => _ end) => destruct x
        end ]. }
  exact (R w _ _ H).
Qed.

Lemma main_exit_code_witness :
  let w := Scenario.release_world "1.2.3" "1.2.3" [] ["n"]%string in
  main w = (Ok 0, snd (main w)) /\ (0 = 0 \/ 0 = 1).
Proof.
  intros w.
  assert (H : main w = (Ok 0, snd (main w))) by (vm_compute; reflexivity).
  split; [exact H | exact (main_exit_code w 0 _ H)].
Defined.

(** ** main without the metadata files *)

Lemma main_without_file (w : world) :
  files (w_fs w) !! path_join (w_script_dir w) "setup.py" = None
  \/ files (w_fs w) !! path_join (w_script_dir w) "pyproject.toml" = None ->
  main w = (Ok 1, add_log (Print "錯誤: 無法找到 setup.py 或 pyproject.toml 檔案") w).
Proof.
  intros H. unfold main, bind, gets, path_exists.
  destruct H as [H|H]; rewrite H.
  - reflexivity.
  - destruct (files (w_fs w) !! path_join (w_script_dir w) "setup.py"); reflexivity.
Qed.

(** When [setup.py] or [pyproject.toml] is missing next to the script,
    [main] prints the error and returns 1: no file is read, nothing is
    asked, the working directory is not touched and no command is run. *)
Theorem main_missing_file (w : world) :
  files (w_fs w) !! path_join (w_script_dir w) "setup.py" = None
  \/ files (w_fs w) !! path_join (w_script_dir w) "pyproject.toml" = None ->
  main w = (Ok 1, add_log (Print "錯誤: 無法找到 setup.py 或 pyproject.toml 檔案") w).
Proof. exact (main_without_file w). Qed.

Lemma main_missing_file_witness :
  let w := set_fs {| files := ∅; cwd := [("build"%string, Dir [])] |}
             (Scenario.release_world "1" "1" [] ["y"]%string) in
  fst (main w) = Ok 1 /\ w_fs (snd (main w)) = w_fs w /\ w_stdin (snd (main w)) = w_stdin w.
Proof.
  intros w. rewrite (main_missing_file w); [repeat split|].
  left. vm_compute. reflexivity.
Defined.

(** ** The upload comes after a successful build *)

(** In a run of [main] from an empty log, the upload tool is run only
    after the build has run and exited with status 0: the log then reads
    events without an upload, the successful build, and the rest. *)
Theorem main_upload_after_build (w : world) (r : result Z) (w' : world) :
  w_log w = [] ->
  main w = (r, w') ->
  Exists upload_run (w_log w') ->
  exists before executable after,
    w_log w' = before ++ Run (build_argv executable) (Exited 0) :: after
    /\ Forall (fun e => ~ upload_run e) before.
Proof.
  intros Hlog Hmain Hup.
  assert (Hno : forall l, Forall early l -> ~ Exists upload_run l).
  { intros l F Hex. apply List.Exists_exists in Hex as (e0 & Hin & He).
    rewrite List.Forall_forall in F. exact (early_not_upload e0 (F e0 Hin) He). }
  destruct (main_reaches_publish early (fun _ => I) early_asks w r w' Hmain)
    as [(evs & E & F)|(w1 & nv & t & evs & E1 & F1 & Hp)]; rewrite Hlog in *; simpl in *.
  { exfalso. rewrite E in Hup. exact (Hno _ F Hup). }
  apply publish_cases in Hp
    as [(f & Et & Hafter)|[(code & f & Et & Hc & -> & ->)|(e & f & Et & Elog)]].
  - destruct (emits_after_build nv t _ _ _ Hafter) as (evs2 & E2 & F2).
    rewrite (after_run_log _ _ _ _ Et), E1 in E2.
    exists evs, (w_executable w1), evs2. split.
    + now rewrite E2, <- List.app_assoc.
    + eapply List.Forall_impl; [|exact F1]. exact early_not_upload.
  - exfalso. simpl in Hup. rewrite (after_run_log _ _ _ _ Et), E1 in Hup.
    rewrite !Exists_app in Hup. destruct Hup as [[Hup|Hup]|Hup].
    + exact (Hno _ F1 Hup).
    + apply Exists_cons in Hup as [Hup|Hup];
        [exact (build_not_upload _ _ Hup) | now apply Exists_nil in Hup].
    + apply Exists_cons in Hup as [Hup|Hup];
        [exact (print_not_upload _ Hup) | now apply Exists_nil in Hup].
  - exfalso. rewrite Elog, (after_run_log _ _ _ _ Et), E1 in Hup.
    rewrite !Exists_app in Hup. destruct Hup as [[Hup|Hup]|Hup].
    + exact (Hno _ F1 Hup).
    + apply Exists_cons in Hup as [Hup|Hup];
        [exact (build_not_upload _ _ Hup) | now apply Exists_nil in Hup].
    + destruct (is_CalledProcessError e); [|now apply Exists_nil in Hup].
      apply Exists_cons in Hup as [Hup|Hup];
        [exact (print_not_upload _ Hup) | now apply Exists_nil in Hup].
Qed.

Lemma main_upload_after_build_witness :
  let w := Scenario.release_world "1.2.3" "1.2.3" [] ["y"; "y"]%string in
  exists before executable after,
    w_log (snd (main w)) = before ++ Run (build_argv executable) (Exited 0) :: after
    /\ Forall (fun e => ~ upload_run e) before.
Proof.
  intros w. apply (main_upload_after_build w (fst (main w))).
  - reflexivity.
  - apply surjective_pairing.
  - apply List.Exists_exists. exists (Run (upload_argv true) (Exited 0)). split.
    + vm_compute. repeat first [left; reflexivity | right].
    + now exists true, (Exited 0).
Defined.

(** ** get_current_version reads, and only reads *)

Lemma get_current_version_run
    (setup_file pyproject_file sc pc : string) (w : world) :
  files (w_fs w) !! setup_file = Some sc ->
  files (w_fs w) !! pyproject_file = Some pc ->
  let sv := search_quoted setup_lit sc in
  let pv := search_quoted pyproject_lit pc in
  get_current_version setup_file pyproject_file w =
    if (truthy sv && truthy pv && negb (opt_eqb sv pv))%bool
    then (Ok sv, add_log (Print (msg_version_conflict sv pv)) w)
    else (Ok (if truthy sv then sv else pv), w).
Proof.
  intros Hs Hp sv pv. unfold get_current_version, bind, read_file. rewrite Hs, Hp.
  fold sv pv.
  destruct (truthy sv && truthy pv && negb (opt_eqb sv pv))%bool; reflexivity.
Qed.

Lemma get_current_version_effects
    (setup_file pyproject_file : string) (w : world) (r : result (option string))
    (w' : world) :
  get_current_version setup_file pyproject_file w = (r, w') ->
  w_fs w' = w_fs w
  /\ w_stdin w' = w_stdin w
  /\ (forall e, r = Raise e -> w' = w)
  /\ (files (w_fs w) !! setup_file = None -> r = Raise FileNotFoundError)
  /\ (is_Some (files (w_fs w) !! setup_file) ->
      files (w_fs w) !! pyproject_file = None -> r = Raise FileNotFoundError)
  /\ (is_Some (files (w_fs w) !! setup_file) ->
      is_Some (files (w_fs w) !! pyproject_file) -> exists v, r = Ok v).
Proof.
  destruct (files (w_fs w) !! setup_file) as [sc|] eqn:Hs.
  - destruct (files (w_fs w) !! pyproject_file) as [pc|] eqn:Hp.
    + rewrite (get_current_version_run _ _ sc pc w Hs Hp). cbv zeta.
      destruct (_ && _ && _)%bool; intros [= <- <-];
        (split; [reflexivity|]); (split; [reflexivity|]);
        (split; [intros e He; discriminate He|]);
        (split; [intros H; discriminate H|]);
        (split; [intros _ H; discriminate H | intros _ _; eauto]).
    + unfold get_current_version, bind, read_file. rewrite Hs, Hp.
      intros [= <- <-]. split; [reflexivity|]. split; [reflexivity|].
      split; [reflexivity|]. split; [reflexivity|].
      split; [reflexivity | intros _ [x Hx]; discriminate Hx].
  - unfold get_current_version, bind, read_file. rewrite Hs.
    intros [= <- <-]. split; [reflexivity|]. split; [reflexivity|].
    split; [reflexivity|]. split; [reflexivity|].
    split; intros [x Hx]; discriminate Hx.
Qed.

(** [get_current_version] changes neither the files nor the working
    directory nor the typed lines, and when it raises it has printed
    nothing.  It raises [FileNotFoundError] when the first file is
    missing, and when the first can be read and the second is missing;
    it returns when both can be read. *)
Theorem get_current_version_reads_only
    (setup_file pyproject_file : string) (w : world) (r : result (option string))
    (w' : world) :
  get_current_version setup_file pyproject_file w = (r, w') ->
  w_fs w' = w_fs w
  /\ w_stdin w' = w_stdin w
  /\ (forall e, r = Raise e -> w' = w)
  /\ (files (w_fs w) !! setup_file = None -> r = Raise FileNotFoundError)
  /\ (is_Some (files (w_fs w) !! setup_file) ->
      files (w_fs w) !! pyproject_file = None -> r = Raise FileNotFoundError)
  /\ (is_Some (files (w_fs w) !! setup_file) ->
      is_Some (files (w_fs w) !! pyproject_file) -> exists v, r = Ok v).
Proof. exact (get_current_version_effects setup_file pyproject_file w r w'). Qed.

Lemma get_current_version_reads_only_witness :
  let w := set_fs {| files := <["a"%string := "x"%string]> ∅; cwd := [] |}
             (Scenario.release_world "1" "1" [] []) in
  get_current_version "a" "b" w = (Raise FileNotFoundError, w)
  /\ w_fs w = w_fs w.
Proof.
  intros w.
  assert (H : get_current_version "a" "b" w = (Raise FileNotFoundError, w))
    by (vm_compute; reflexivity).
  split; [exact H | exact (proj1 (get_current_version_reads_only _ _ _ _ _ H))].
Defined.

Lemma get_current_version_found
    (setup_file pyproject_file sc pc v : string) (w w' : world) :
  files (w_fs w) !! setup_file = Some sc ->
  files (w_fs w) !! pyproject_file = Some pc ->
  get_current_version setup_file pyproject_file w = (Ok (Some v), w') ->
  Str.truthy v = true
  /\ Str.contains Str.dquote v = false
  /\ (declares setup_lit v sc
      \/ (search_quoted setup_lit sc = None /\ declares pyproject_lit v pc)).
Proof.
  intros Hs Hp. rewrite (get_current_version_run _ _ sc pc w Hs Hp). cbv zeta.
  assert (Hd : forall lit s g, search_quoted lit s = Some g ->
                 Str.truthy g = true /\ Str.contains Str.dquote g = false
                 /\ declares lit g s).
  { intros lit s g H. apply search_quoted_inv in H as (Ht & Hq & before & after & ->).
    repeat split; try assumption. exists before, after.
    now rewrite declaration_app. }
  destruct (search_quoted setup_lit sc) as [a|] eqn:Ea.
  - destruct (Hd _ _ _ Ea) as (Ht & Hq & Hdecl).
    change (truthy (Some a)) with (Str.truthy a). rewrite Ht.
    destruct (_ && _)%bool; intros [= <- _]; repeat split; auto.
  - simpl. destruct (search_quoted pyproject_lit pc) as [b|] eqn:Eb; [|discriminate].
    destruct (Hd _ _ _ Eb) as (Ht & Hq & Hdecl).
    intros [= <- _]. repeat split; auto.
Qed.

(** The version [get_current_version] returns is not empty, has no
    double quote, and is declared in one of the two files: in [setup.py]
    when that file has a declaration, else in [pyproject.toml]. *)
Theorem get_current_version_declared
    (setup_file pyproject_file sc pc v : string) (w w' : world) :
  files (w_fs w) !! setup_file = Some sc ->
  files (w_fs w) !! pyproject_file = Some pc ->
  get_current_version setup_file pyproject_file w = (Ok (Some v), w') ->
  Str.truthy v = true
  /\ Str.contains Str.dquote v = false
  /\ (declares setup_lit v sc
      \/ (search_quoted setup_lit sc = None /\ declares pyproject_lit v pc)).
Proof. exact (get_current_version_found setup_file pyproject_file sc pc v w w'). Qed.

Lemma get_current_version_declared_witness :
  Str.truthy "1.2.3" = true
  /\ Str.contains Str.dquote "1.2.3" = false
  /\ (declares setup_lit "1.2.3" (Scenario.setup_py "1.2.3")
      \/ (search_quoted setup_lit (Scenario.setup_py "1.2.3") = None
          /\ declares pyproject_lit "1.2.3" (Scenario.pyproject_toml "1.2.4"))).
Proof.
  apply (get_current_version_declared Scenario.setup_file Scenario.pyproject_file
           _ _ _ (Scenario.release_world "1.2.3" "1.2.4" [] [])
           (snd (get_current_version Scenario.setup_file Scenario.pyproject_file
                   (Scenario.release_world "1.2.3" "1.2.4" [] [])))).
  - vm_compute. reflexivity.
  - vm_compute. reflexivity.
  - vm_compute. reflexivity.
Defined.

(** ** More on increment_version *)

Lemma decimal_neg (p : positive) :
  PyInt.decimal (Z.neg p) = String minus (PyInt.decimal (Z.pos p)).
Proof. reflexivity. Qed.

(** The text of a number is made of digits, after a minus sign for a
    negative number. *)
Lemma decimal_chars (n : Z) : Str.all_chars numeral_char (PyInt.decimal n) = true.
Proof.
  assert (Hd : forall s, Str.all_chars PyInt.is_digit s = true ->
                 Str.all_chars numeral_char s = true).
  { induction s as [|c t IH]; simpl; [reflexivity|].
    intros H. apply andb_true_iff in H as [Hc Ht].
    unfold numeral_char at 1. now rewrite Hc, (IH Ht). }
  destruct n as [|p|p].
  - reflexivity.
  - apply Hd. destruct (decimal_nonneg (Z.pos p)) as [H _]; [lia|].
    now apply andb_true_iff in H as [_ H].
  - rewrite decimal_neg. simpl. apply Hd.
    destruct (decimal_nonneg (Z.pos p)) as [H _]; [lia|].
    now apply andb_true_iff in H as [_ H].
Qed.

Lemma contains_outside (f : ascii -> bool) (c : ascii) (s : string) :
  f c = false -> Str.all_chars f s = true -> Str.contains c s = false.
Proof.
  intros Hc. induction s as [|d t IH]; simpl; [reflexivity|].
  intros H. apply andb_true_iff in H as [Hd Ht].
  rewrite (IH Ht), orb_false_r.
  destruct (Ascii.eqb_spec d c) as [->|]; [congruence | reflexivity].
Qed.

Lemma decimal_no_dot (n : Z) : Str.contains Str.dot (PyInt.decimal n) = false.
Proof. exact (contains_outside numeral_char Str.dot _ eq_refl (decimal_chars n)). Qed.


(** The text of a number meets the syntax of [int], with the number
    as value. *)
Lemma numeral_of_decimal (n : Z) : PyInt.numeral (PyInt.decimal n) = Some n.
Proof.
  destruct (Z.neg_nonneg_cases n) as [Hneg|Hpos].
  - destruct n as [|p|p]; try lia. rewrite decimal_neg.
    destruct (decimal_nonneg (Z.pos p)) as [Hdec Hval]; [lia|].
    pose proof Hdec as Hdec'. apply andb_true_iff in Hdec' as [Hne Hd].
    unfold PyInt.numeral.
    change (PyInt.lstrip (String minus ?s)) with (String minus s).
    assert (Hr : PyInt.rstrip (String minus (PyInt.decimal (Z.pos p)))
                 = String minus (PyInt.decimal (Z.pos p))).
    { simpl. rewrite (rstrip_digits _ Hd).
      destruct (PyInt.decimal (Z.pos p)); [discriminate | reflexivity]. }
    rewrite Hr.
    change (Ascii.eqb minus (ascii_of_nat 43)) with false.
    change (Ascii.eqb minus (ascii_of_nat 45)) with true. cbv iota.
    rewrite (parse_digits_value _ 0 false Hd) by (now rewrite Hne).
    fold (PyInt.decimal_value (PyInt.decimal (Z.pos p))). now rewrite Hval.
  - destruct (decimal_nonneg n Hpos) as [Hdec Hval].
    now rewrite (numeral_decimal _ Hdec), Hval.
Qed.

Lemma str_inv (n : Z) (text : string) :
  PyInt.str n = Some text ->
  text = PyInt.decimal n /\ PyInt.within_limit text = true.
Proof.
  unfold PyInt.str. destruct (PyInt.within_limit (PyInt.decimal n)) eqn:E; [|discriminate].
  now intros [= <-].
Qed.

(** Reading the text [str] gave for a number gives the number back. *)
Lemma int_str (n : Z) (text : string) :
  PyInt.str n = Some text -> PyInt.int text = Some n.
Proof.
  intros H. apply str_inv in H as [-> Hl]. unfold PyInt.int.
  now rewrite Hl, numeral_of_decimal.
Qed.

Lemma str_no_dot (n : Z) (text : string) :
  PyInt.str n = Some text -> Str.contains Str.dot text = false.
Proof. intros H. apply str_inv in H as [-> _]. apply decimal_no_dot. Qed.


Lemma length_append (a b : string) :
  String.length (String.append a b) = (String.length a + String.length b)%nat.
Proof. induction a as [|c a IH]; simpl; [reflexivity | now rewrite IH]. Qed.

Lemma split_set_last (parts : list string) (x : string) :
  parts <> [] ->
  Forall (fun p => Str.contains Str.dot p = false) parts ->
  Str.contains Str.dot x = false ->
  Str.split Str.dot (Str.join Str.dot (set_last parts x)) = set_last parts x.
Proof.
  intros Hne Hp Hx. unfold set_last. apply split_join.
  - intros E. apply app_eq_nil in E as [_ E]. discriminate.
  - apply Forall_app; split; [now apply Forall_removelast | now repeat constructor].
Qed.

(** The two steps of the long branch, each of which can raise. *)
Lemma increment_version_long (v : string) :
  (3 <= length (Str.split Str.dot v))%nat ->
  increment_version (Some v) =
  match PyInt.int (List.last (Str.split Str.dot v) Str.empty) with
  | Some n =>
      match PyInt.str (n + 1) with
      | Some text => Ok (Str.join Str.dot (set_last (Str.split Str.dot v) text))
      | None => Raise ValueError
      end
  | None => Raise ValueError
  end.
Proof.
  intros Hlen. unfold increment_version.
  rewrite split_long_truthy by lia. cbn [negb].
  apply Nat.leb_le in Hlen. now rewrite Hlen.
Qed.

(** With three or more components, of which the last is ASCII text,
    [increment_version] depends on the last one only through [int] and
    [str].  When [int] rejects it (it is not white space, an optional
    sign, and digits with single underscores between them, or it has more
    digits than the limit) the call raises [ValueError]; so it does when
    the successor is over the limit.  Otherwise the other components are
    kept and the last becomes the text of the value plus one, which reads
    back as that number: blanks, a plus sign, underscores and leading
    zeros are gone. *)
Theorem increment_version_last_component (v : string) :
  let parts := Str.split Str.dot v in
  (3 <= length parts)%nat ->
  Str.all_chars Str.is_ascii (List.last parts Str.empty) = true ->
  match PyInt.int (List.last parts Str.empty) with
  | None => increment_version (Some v) = Raise ValueError
  | Some n =>
      match PyInt.str (n + 1) with
      | None => increment_version (Some v) = Raise ValueError
      | Some text =>
          increment_version (Some v)
          = Ok (Str.join Str.dot (removelast parts ++ [text]))
          /\ Str.split Str.dot (Str.join Str.dot (removelast parts ++ [text]))
             = removelast parts ++ [text]
          /\ text = PyInt.decimal (n + 1)
          /\ PyInt.int text = Some (n + 1)
      end
  end.
Proof.
  intros parts Hlen _.
  rewrite (increment_version_long v Hlen). fold parts.
  destruct (PyInt.int (List.last parts Str.empty)) as [n|]; [|reflexivity].
  destruct (PyInt.str (n + 1)) as [text|] eqn:Hstr; [|reflexivity].
  split; [reflexivity|]. split; [|split; [exact (proj1 (str_inv _ _ Hstr))
                                          | exact (int_str _ _ Hstr)]].
  apply (split_set_last parts).
  - apply split_not_nil.
  - apply split_parts_no_sep.
  - exact (str_no_dot _ _ Hstr).
Qed.

Lemma increment_version_last_component_witness :
  increment_version (Some "1.2. -5"%string) = Ok "1.2.-4"%string
  /\ increment_version (Some "1.2.3b1"%string) = Raise ValueError.
Proof.
  split.
  - exact (proj1 (increment_version_last_component "1.2. -5"
                    ltac:(vm_compute; lia) eq_refl)).
  - exact (increment_version_last_component "1.2.3b1" ltac:(vm_compute; lia) eq_refl).
Defined.

(** The separators 28 to 31 are no white space for [int]. *)
Example increment_version_separator :
  increment_version (Some (String.append "1.2." (String (ascii_of_nat 28) "5")))
  = Raise ValueError.
Proof. vm_compute. reflexivity. Qed.

(** [increment_version] never returns the version it was given. *)
Theorem increment_version_changes (v v' : string) :
  increment_version (Some v) = Ok v' -> v' <> v.
Proof.
  unfold increment_version.
  destruct (Str.truthy v) eqn:Ht; cbn [negb].
  2: { apply truthy_false in Ht as ->. now intros [= <-]. }
  set (parts := Str.split Str.dot v).
  destruct (3 <=? length parts)%nat eqn:Hlen.
  - destruct (PyInt.int (List.last parts Str.empty)) as [n|] eqn:Hint; [|discriminate].
    destruct (PyInt.str (n + 1)) as [text|] eqn:Hstr; [|discriminate].
    intros [= <-] E.
    assert (Hs : set_last parts text = parts).
    { rewrite <- (split_set_last parts text).
      - rewrite E. reflexivity.
      - apply split_not_nil.
      - apply split_parts_no_sep.
      - exact (str_no_dot _ _ Hstr). }
    unfold set_last in Hs.
    pose proof (app_removelast_last Str.empty (split_not_nil Str.dot v)) as Hl.
    fold parts in Hl.
    assert (Hx : removelast parts ++ [text]
                 = removelast parts ++ [List.last parts Str.empty])
      by (rewrite <- Hl; exact Hs).
    apply app_inv_head in Hx. injection Hx as Hx.
    rewrite <- Hx, (int_str _ _ Hstr) in Hint. injection Hint as Hint. lia.
  - intros [= <-] E. apply (f_equal String.length) in E.
    rewrite join_snoc in E by apply split_not_nil.
    unfold parts in E. rewrite join_split, length_append in E. simpl in E. lia.
Qed.

Lemma increment_version_changes_witness :
  increment_version (Some "1.2.3"%string) = Ok "1.2.4"%string
  /\ "1.2.4"%string <> "1.2.3"%string.
Proof.
  assert (H : increment_version (Some "1.2.3"%string) = Ok "1.2.4"%string)
    by reflexivity.
  split; [exact H | exact (increment_version_changes _ _ H)].
Defined.

(** ** The new version main computes *)





(** ** main when the first answer is not yes *)

Lemma increment_version_raises (version : option string) (e : exn_class) :
  increment_version version = Raise e -> e = ValueError.
Proof.
  unfold increment_version. destruct version as [v|]; [|discriminate].
  destruct (negb (Str.truthy v)); [discriminate|].
  destruct (3 <=? _)%nat; [|discriminate].
  destruct (PyInt.int _) as [n|]; [|now intros [= <-]].
  destruct (PyInt.str _); [discriminate | now intros [= <-]].
Qed.

(** When the first line typed is not y (in either case), [main] changes
    no file and no entry of the working directory and runs no command.
    When moreover both metadata files can be read, it returns 0 after the
    cancellation or raises [ValueError] from [increment_version]. *)
Theorem main_not_confirmed
    (w : world) (answer : string) (rest : list string) (r : result Z) (w' : world) :
  w_stdin w = answer :: rest ->
  Str.lower answer <> "y"%string ->
  main w = (r, w') ->
  w_fs w' = w_fs w
  /\ (exists evs, w_log w' = w_log w ++ evs /\ Forall (fun e => ~ is_run e) evs)
  /\ (is_Some (files (w_fs w) !! path_join (w_script_dir w) "setup.py") ->
      is_Some (files (w_fs w) !! path_join (w_script_dir w) "pyproject.toml") ->
      (r = Ok 0 /\ In (Print msg_cancelled) (w_log w')) \/ r = Raise ValueError).
Proof.
  intros Hin Hno Hmain.
  assert (Hq : forall e, early e -> ~ is_run e) by (intros [] He; easy).
  destruct (files (w_fs w) !! path_join (w_script_dir w) "setup.py") as [sc|] eqn:Hs.
  2: { rewrite (main_without_file w (or_introl Hs)) in Hmain. injection Hmain as <- <-.
       split; [reflexivity|]. split; [|intros [x Hx]; discriminate Hx].
       exists [Print "錯誤: 無法找到 setup.py 或 pyproject.toml 檔案"]. split; [reflexivity|].
       repeat constructor. easy. }
  destruct (files (w_fs w) !! path_join (w_script_dir w) "pyproject.toml") as [pc|] eqn:Hp.
  2: { rewrite (main_without_file w (or_intror Hp)) in Hmain. injection Hmain as <- <-.
       split; [reflexivity|]. split; [|intros _ [x Hx]; discriminate Hx].
       exists [Print "錯誤: 無法找到 setup.py 或 pyproject.toml 檔案"]. split; [reflexivity|].
       repeat constructor. easy. }
  unfold main, bind at 1, gets in Hmain.
  unfold bind at 1, path_exists in Hmain. rewrite Hs in Hmain.
  unfold bind at 1 in Hmain. rewrite Hp in Hmain.
  cbn [bool_decide negb orb] in Hmain.
  rewrite !bool_decide_eq_true_2 in Hmain by eauto. cbn [negb orb] in Hmain.
  unfold bind at 1 in Hmain.
  destruct (get_current_version _ _ w) as [[cv|e] w1] eqn:Hget.
  2: { destruct (get_current_version_effects _ _ _ _ _ Hget)
         as (_ & _ & _ & _ & _ & Hret).
       rewrite Hs, Hp in Hret.
       destruct (Hret ltac:(eauto) ltac:(eauto)) as [v Hv]. discriminate Hv. }
  destruct (get_current_version_effects _ _ _ _ _ Hget) as (Hfs & Hst & _).
  destruct (emits_get_current_version early (fun _ => I) _ _ _ _ _ Hget)
    as (evs1 & E1 & F1).
  unfold bind at 1, print in Hmain. unfold bind at 1, lift in Hmain.
  destruct (increment_version cv) as [nv|e] eqn:Hinc.
  2: { injection Hmain as <- <-. apply increment_version_raises in Hinc as ->.
       split; [exact Hfs|]. split; [|intros _ _; now right].
       exists (evs1 ++ [Print (cat ["當前版本: "; fmt cv]%string)]). split.
       - simpl. now rewrite E1, List.app_assoc.
       - apply Forall_app; split.
         + eapply List.Forall_impl; [|exact F1]. exact Hq.
         + repeat constructor. easy. }
  unfold bind at 1 in Hmain. unfold bind at 1, input in Hmain.
  simpl w_stdin in Hmain. rewrite Hst, Hin in Hmain.
  apply String.eqb_neq in Hno. rewrite Hno in Hmain. cbn [negb] in Hmain.
  unfold bind, print, ret in Hmain. injection Hmain as <- <-.
  split; [exact Hfs|]. split.
  - eexists (evs1 ++ [_; _; _; _]). split.
    + simpl. rewrite E1. rewrite <- !List.app_assoc. reflexivity.
    + apply Forall_app; split.
      * eapply List.Forall_impl; [|exact F1]. exact Hq.
      * repeat constructor; easy.
  - intros _ _. left. split; [reflexivity|].
    simpl. rewrite !in_app_iff. simpl. tauto.
Qed.

Lemma main_not_confirmed_witness :
  let w := Scenario.release_world "1.2.3" "1.2.3" [("dist"%string, Dir [])]
             ["N"; "y"]%string in
  w_fs (snd (main w)) = w_fs w
  /\ (exists evs,
        w_log (snd (main w)) = w_log w ++ evs /\ Forall (fun e => ~ is_run e) evs)
  /\ ((fst (main w) = Ok 0 /\ In (Print msg_cancelled) (w_log (snd (main w))))
      \/ fst (main w) = Raise ValueError).
Proof.
  intros w.
  destruct (main_not_confirmed w "N" ["y"%string] (fst (main w)) (snd (main w)))
    as (Hfs & Hlog & Hres).
  - reflexivity.
  - discriminate.
  - apply surjective_pairing.
  - split; [exact Hfs|]. split; [exact Hlog|].
    apply Hres; vm_compute; eauto.
Defined.

(** ** More on update_version_in_files *)

Lemma search_quoted_step (lit s : string) :
  search_quoted lit s =
  match match_quoted lit s with
  | Some (g, _) => Some g
  | None =>
      match s with
      | EmptyString => None
      | String _ t => search_quoted lit t
      end
  end.
Proof. destruct s; reflexivity. Qed.

(** A text without a declaration is left as it is. *)
Lemma sub_no_match (lit repl s : string) :
  search_quoted lit s = None -> sub_quoted lit repl s = s.
Proof.
  induction s as [|c t IH]; rewrite search_quoted_step, sub_quoted_step;
    destruct (match_quoted lit _) as [[g r]|]; try discriminate; [reflexivity|].
  intros H. now rewrite (IH H).
Qed.

Section SubSearch.

Variable c0 : ascii.
Variable body' : string.

Local Abbreviation lit := (String c0 (String.append body' (Str.of_char Str.dquote))).

Hypothesis c0_not_dquote : Ascii.eqb c0 Str.dquote = false.
Hypothesis c0_once : Str.contains c0 body' = false.
Hypothesis body_no_dquote : Str.contains Str.dquote body' = false.


End SubSearch.





(** With a carriage return in the new version the round trip fails: the
    version read back has a line feed in its place. *)
Example update_then_get_carriage_return :
  let nv := String.append "1.2" (String Str.cr "4") in
  let w := Scenario.release_world "1.2.3" "1.2.3" [] [] in
  let w1 := snd (update_version_in_files Scenario.setup_file Scenario.pyproject_file nv w) in
  fst (get_current_version Scenario.setup_file Scenario.pyproject_file w1)
  = Ok (Some (String.append "1.2" (String Str.lf "4"))).
Proof. vm_compute. reflexivity. Qed.

Lemma update_version_in_files_nothing
    (setup_file pyproject_file new_version sc pc : string) (w : world) :
  Str.contains backslash new_version = false ->
  files (w_fs w) !! setup_file = Some sc ->
  files (w_fs w) !! pyproject_file = Some pc ->
  search_quoted setup_lit sc = None ->
  search_quoted pyproject_lit pc = None ->
  update_version_in_files setup_file pyproject_file new_version w = (Ok [], w).
Proof.
  intros Hb Hs Hp Hns Hnp.
  unfold update_version_in_files, bind at 1, read_file at 1. rewrite Hs.
  unfold bind at 1. rewrite (re_sub_literal setup_lit _ sc w eq_refl Hb).
  rewrite (sub_no_match _ _ _ Hns), String.eqb_refl. cbn [negb].
  unfold bind at 1, ret at 1.
  unfold bind at 1, read_file at 1. rewrite Hp.
  unfold bind at 1. rewrite (re_sub_literal pyproject_lit _ pc w eq_refl Hb).
  rewrite (sub_no_match _ _ _ Hnp), String.eqb_refl. reflexivity.
Qed.

(** When neither file declares a version, [update_version_in_files]
    writes nothing and returns the empty list, for every new version
    without a backslash; the two paths may even be the same. *)
Theorem update_version_in_files_no_declaration
    (setup_file pyproject_file new_version sc pc : string) (w : world) :
  Str.contains backslash new_version = false ->
  files (w_fs w) !! setup_file = Some sc ->
  files (w_fs w) !! pyproject_file = Some pc ->
  search_quoted setup_lit sc = None ->
  search_quoted pyproject_lit pc = None ->
  update_version_in_files setup_file pyproject_file new_version w = (Ok [], w).
Proof. exact (update_version_in_files_nothing setup_file pyproject_file new_version sc pc w). Qed.

Lemma update_version_in_files_no_declaration_witness :
  let w := set_fs {| files := <["a" := "name = 'pkg'"]> (<["b" := "[project]"]> ∅);
                     cwd := [] |} (Scenario.release_world "1" "1" [] []) in
  update_version_in_files "a" "b" "0.1.0" w = (Ok [], w).
Proof.
  intros w. apply (update_version_in_files_no_declaration "a" "b" "0.1.0"
                     "name = 'pkg'" "[project]");
    vm_compute; reflexivity.
Defined.

(** [update_version_in_files] touches the two files it is given and
    nothing else, however it ends: every other file, the working
    directory, the typed lines and the log are as before. *)
Theorem update_version_in_files_frame
    (setup_file pyproject_file new_version : string) (w : world)
    (r : result (list string)) (w' : world) :
  update_version_in_files setup_file pyproject_file new_version w = (r, w') ->
  cwd (w_fs w') = cwd (w_fs w)
  /\ w_stdin w' = w_stdin w
  /\ w_log w' = w_log w
  /\ (forall path, path <> setup_file -> path <> pyproject_file ->
        files (w_fs w') !! path = files (w_fs w) !! path).
Proof.
  assert (Hsub : forall lit content w0 r0 w1,
            re_sub lit new_version content w0 = (r0, w1) -> w1 = w0).
  { intros lit content w0 r0 w1. unfold re_sub.
    destruct (has_escape _); now intros [= _ <-]. }
  unfold update_version_in_files, bind at 1, read_file at 1.
  destruct (files (w_fs w) !! setup_file) as [sc|]; [|now intros [= <- <-]].
  unfold bind at 1.
  destruct (re_sub setup_lit new_version sc w) as [[sc'|e] w0] eqn:E1;
    pose proof (Hsub _ _ _ _ _ E1) as ->; [|now intros [= <- <-]].
  unfold bind at 1.
  destruct (negb (String.eqb sc' sc)).
  - unfold bind at 1, write_file, ret at 1.
    unfold bind at 1, read_file at 1.
    destruct (files _ !! pyproject_file) as [pc|];
      [|intros [= <- <-]; repeat split; intros; simpl;
        now rewrite lookup_insert_ne by congruence].
    unfold bind at 1.
    destruct (re_sub pyproject_lit new_version pc _) as [[pc'|e] w0] eqn:E2;
      pose proof (Hsub _ _ _ _ _ E2) as ->;
      [|intros [= <- <-]; repeat split; intros; simpl;
        now rewrite lookup_insert_ne by congruence].
    unfold bind at 1.
    destruct (negb (String.eqb pc' pc)).
    + unfold bind, write_file, ret. intros [= <- <-]. repeat split. intros. simpl.
      now rewrite !lookup_insert_ne by congruence.
    + unfold bind, ret. intros [= <- <-]. repeat split. intros. simpl.
      now rewrite lookup_insert_ne by congruence.
  - unfold ret at 1.
    unfold bind at 1, read_file at 1.
    destruct (files _ !! pyproject_file) as [pc|]; [|now intros [= <- <-]].
    unfold bind at 1.
    destruct (re_sub pyproject_lit new_version pc _) as [[pc'|e] w0] eqn:E2;
      pose proof (Hsub _ _ _ _ _ E2) as ->; [|now intros [= <- <-]].
    unfold bind at 1.
    destruct (negb (String.eqb pc' pc)).
    + unfold bind, write_file, ret. intros [= <- <-]. repeat split. intros. simpl.
      now rewrite lookup_insert_ne by congruence.
    + unfold bind, ret. now intros [= <- <-].
Qed.

Lemma update_version_in_files_frame_witness :
  let w := Scenario.release_world "1.2.3" "1.2.3" [("dist"%string, Dir [])] ["y"]%string in
  let w' := snd (update_version_in_files Scenario.setup_file Scenario.pyproject_file
                   "1.2.4" w) in
  cwd (w_fs w') = cwd (w_fs w)
  /\ w_stdin w' = w_stdin w
  /\ w_log w' = w_log w
  /\ (forall path, path <> Scenario.setup_file -> path <> Scenario.pyproject_file ->
        files (w_fs w') !! path = files (w_fs w) !! path).
Proof.
  intros w w'.
  apply (update_version_in_files_frame Scenario.setup_file Scenario.pyproject_file
           "1.2.4" w
           (fst (update_version_in_files Scenario.setup_file Scenario.pyproject_file
                   "1.2.4" w))).
  apply surjective_pairing.
Defined.

(** ** More on clean_build_directories *)

Lemma lookup_entry_filter (keep : string -> bool) (name : string)
    (entries : list (string * node)) :
  lookup_entry name (List.filter (fun e => keep (fst e)) entries)
  = if keep name then lookup_entry name entries else None.
Proof.
  induction entries as [|[n x] rest IH]; simpl; [now destruct (keep name)|].
  destruct (keep n) eqn:Hn; simpl.
  - destruct (String.eqb_spec n name) as [->|]; [now rewrite Hn | exact IH].
  - destruct (String.eqb_spec n name) as [->|]; [now rewrite IH, Hn | exact IH].
Qed.

Lemma filter_all {A : Type} (f : A -> bool) (l : list A) :
  (forall x, In x l -> f x = true) -> List.filter f l = l.
Proof.
  induction l as [|x l IH]; [reflexivity|]. intros H. simpl.
  rewrite (H x (or_introl eq_refl)). f_equal. apply IH. intros y Hy. apply H. now right.
Qed.

Lemma filter_twice {A : Type} (f g : A -> bool) (l : list A) :
  List.filter f (List.filter g l) = List.filter (fun x => g x && f x)%bool l.
Proof.
  induction l as [|x l IH]; [reflexivity|]. simpl.
  destruct (g x); simpl; [destruct (f x); now rewrite IH | exact IH].
Qed.

Lemma lookup_entry_none_in (name : string) (entries : list (string * node)) :
  lookup_entry name entries = None ->
  forall e, In e entries -> String.eqb (fst e) name = false.
Proof.
  induction entries as [|[n x] rest IH]; simpl; [tauto|].
  destruct (String.eqb n name) eqn:E; [discriminate|].
  intros H e [<-|Hin]; [exact E | now apply IH].
Qed.

Lemma remove_entry_absent (name : string) (entries : list (string * node)) :
  lookup_entry name entries = None -> remove_entry name entries = entries.
Proof.
  intros H. apply filter_all. intros e He.
  now rewrite (lookup_entry_none_in _ _ H e He).
Qed.

Lemma clean_plain_run (name : string) (w : world) :
  exists w',
    clean_plain name w = (Ok tt, w')
    /\ cleaned_by (if is_dir_entry name (cwd (w_fs w))
                   then remove_entry name (cwd (w_fs w))
                   else cwd (w_fs w)) w w'.
Proof.
  unfold clean_plain, bind, isdir, is_dir_entry, print, rmtree.
  destruct (lookup_entry name (cwd (w_fs w))) as [[c|inner]|] eqn:E; simpl;
    repeat (rewrite E; simpl); eexists; (split; [reflexivity|]); now repeat split.
Qed.

Lemma clean_item_run (item : string) (w : world) :
  exists w',
    clean_item item w = (Ok tt, w')
    /\ cleaned_by (remove_entry item (cwd (w_fs w))) w w'.
Proof.
  unfold clean_item, bind, isdir, exists_entry, print, rmtree, os_remove.
  destruct (lookup_entry item (cwd (w_fs w))) as [[c|inner]|] eqn:E; simpl;
    repeat (rewrite E; simpl); eexists; (split; [reflexivity|]); repeat split.
  simpl. now rewrite remove_entry_absent.
Qed.

Lemma clean_items_run (items : list string) : forall w,
  exists w',
    for_each items clean_item w = (Ok tt, w')
    /\ cleaned_by
         (List.filter (fun e => negb (existsb (String.eqb (fst e)) items))
            (cwd (w_fs w))) w w'.
Proof.
  induction items as [|item items IH]; intros w.
  - exists w. split; [reflexivity|]. repeat split.
    simpl. symmetry. now apply filter_all.
  - destruct (clean_item_run item w) as (w1 & E1 & Hf1 & Hc1 & Hs1).
    destruct (IH w1) as (w2 & E2 & Hf2 & Hc2 & Hs2).
    exists w2. split.
    + simpl. unfold bind. now rewrite E1.
    + repeat split; [congruence | | congruence].
      rewrite Hc2, Hc1. unfold remove_entry. rewrite filter_twice.
      apply filter_ext. intros e. simpl. now rewrite negb_orb.
Qed.

Lemma existsb_filter_map (g : string -> bool) (entries : list (string * node))
    (e : string * node) :
  In e entries ->
  existsb (String.eqb (fst e)) (List.filter g (List.map fst entries)) = g (fst e).
Proof.
  intros Hin. destruct (g (fst e)) eqn:Hg.
  - apply existsb_exists. exists (fst e). split; [|apply String.eqb_refl].
    apply filter_In. split; [now apply in_map | exact Hg].
  - destruct (existsb _ _) eqn:Hex; [|reflexivity].
    apply existsb_exists in Hex as (x & Hx & Heq).
    apply String.eqb_eq in Heq as <-. apply filter_In in Hx as [_ Hx]. congruence.
Qed.

Lemma clean_build_directories_run (w : world) :
  exists w',
    clean_build_directories w = (Ok tt, w')
    /\ files (w_fs w') = files (w_fs w)
    /\ cwd (w_fs w') = after_clean (cwd (w_fs w))
    /\ w_stdin w' = w_stdin w
    /\ exists evs, w_log w' = w_log w ++ evs /\ Forall is_print evs.
Proof.
  set (L := cwd (w_fs w)).
  destruct (clean_plain_run "build" w) as (w1 & E1 & Hf1 & Hc1 & Hs1). fold L in Hc1.
  destruct (clean_plain_run "dist" w1) as (w2 & E2 & Hf2 & Hc2 & Hs2).
  assert (Hrun : clean_build_directories w
                 = for_each (List.filter egg_info_visible (List.map fst (cwd (w_fs w2))))
                     clean_item w2).
  { unfold clean_build_directories, bind at 1. rewrite E1.
    unfold bind at 1. rewrite E2. reflexivity. }
  destruct (clean_items_run
              (List.filter egg_info_visible (List.map fst (cwd (w_fs w2)))) w2)
    as (w3 & E3 & Hf3 & Hc3 & Hs3).
  rewrite <- Hrun in E3.
  exists w3. split; [exact E3|]. split; [congruence|]. split; [|split; [congruence|]].
  - (* the working directory *)
    assert (H1 : cwd (w_fs w1)
                 = List.filter
                     (fun e => negb (String.eqb (fst e) "build" && is_dir_entry "build" L))
                     L).
    { rewrite Hc1. destruct (is_dir_entry "build" L).
      - unfold remove_entry. apply filter_ext. intros e. now rewrite andb_true_r.
      - symmetry. apply filter_all. intros e _. now rewrite andb_false_r. }
    assert (Hd : is_dir_entry "dist" (cwd (w_fs w1)) = is_dir_entry "dist" L).
    { unfold is_dir_entry. rewrite H1.
      now rewrite (lookup_entry_filter
                     (fun n => negb (String.eqb n "build" && is_dir_entry "build" L))). }
    assert (H2 : cwd (w_fs w2)
                 = List.filter
                     (fun e => negb (String.eqb (fst e) "dist" && is_dir_entry "dist" L))
                     (cwd (w_fs w1))).
    { rewrite Hc2, Hd. destruct (is_dir_entry "dist" L).
      - unfold remove_entry. apply filter_ext. intros e. now rewrite andb_true_r.
      - symmetry. apply filter_all. intros e _. now rewrite andb_false_r. }
    rewrite Hc3.
    rewrite (filter_ext_in _ (fun e => negb (egg_info_visible (fst e)))).
    2: { intros e He. now rewrite (existsb_filter_map egg_info_visible _ e He). }
    rewrite H2, H1, !filter_twice. unfold after_clean. fold L.
    apply filter_ext. intros e. unfold swept. now rewrite !negb_orb, andb_assoc.
  - (* the log *)
    apply (emits_clean_build_directories is_print (fun _ => I) w _ _ E3).
Qed.

(** [clean_build_directories] never raises.  It leaves the files and the
    typed lines alone, only prints, and removes from the working
    directory exactly: build and dist when they are directories, and
    every name ending in .egg-info that does not start with a dot, file
    or directory.  Everything else stays, in the same order: a regular
    file named build, and a hidden name ending in .egg-info, among
    them. *)
Theorem clean_build_directories_removes (w : world) :
  exists w',
    clean_build_directories w = (Ok tt, w')
    /\ files (w_fs w') = files (w_fs w)
    /\ cwd (w_fs w') = after_clean (cwd (w_fs w))
    /\ w_stdin w' = w_stdin w
    /\ exists evs, w_log w' = w_log w ++ evs /\ Forall is_print evs.
Proof. exact (clean_build_directories_run w). Qed.

Lemma isdir_false (name : string) (w : world) :
  is_dir_entry name (cwd (w_fs w)) = false -> isdir name w = (Ok false, w).
Proof.
  unfold is_dir_entry, isdir.
  destruct (lookup_entry name (cwd (w_fs w))) as [[c|inner]|]; [reflexivity | discriminate | reflexivity].
Qed.

Lemma clean_build_directories_same (w : world) :
  is_dir_entry "build" (cwd (w_fs w)) = false ->
  is_dir_entry "dist" (cwd (w_fs w)) = false ->
  (forall name, In name (List.map fst (cwd (w_fs w))) -> egg_info_visible name = false) ->
  clean_build_directories w = (Ok tt, w).
Proof.
  intros Hb Hd He. unfold clean_build_directories, clean_plain, bind.
  rewrite (isdir_false _ _ Hb). cbv beta iota. unfold ret at 1.
  rewrite (isdir_false _ _ Hd). cbv beta iota. unfold ret at 1.
  unfold glob_egg_info. fold egg_info_visible.
  change (fun n : string => (Str.ends_with ".egg-info" n && negb (is_hidden n))%bool)
    with egg_info_visible.
  now rewrite (filter_none egg_info_visible _ He).
Qed.

(** Nothing to clean, in full: when build and dist are not directories
    and no visible name ends in .egg-info, [clean_build_directories]
    returns normally and changes and prints nothing; a regular file
    named build or dist, and hidden names, do not matter. *)
Theorem clean_build_directories_noop (w : world) :
  is_dir_entry "build" (cwd (w_fs w)) = false ->
  is_dir_entry "dist" (cwd (w_fs w)) = false ->
  (forall name, In name (List.map fst (cwd (w_fs w))) -> egg_info_visible name = false) ->
  clean_build_directories w = (Ok tt, w).
Proof. exact (clean_build_directories_same w). Qed.

Lemma clean_build_directories_noop_witness :
  let w := Scenario.release_world "1.2.3" "1.2.3"
             [("build"%string, File "notes"); (".old.egg-info"%string, Dir [])] [] in
  clean_build_directories w = (Ok tt, w).
Proof.
  intros w. apply clean_build_directories_noop.
  - reflexivity.
  - reflexivity.
  - intros name [<-|[<-|[]]]; reflexivity.
Defined.

(** Cleaning twice is cleaning once: after [clean_build_directories] a
    second call changes and prints nothing. *)
Theorem clean_build_directories_twice (w : world) (r : result unit) (w1 : world) :
  clean_build_directories w = (r, w1) ->
  r = Ok tt /\ clean_build_directories w1 = (Ok tt, w1).
Proof.
  intros H.
  destruct (clean_build_directories_run w) as (w' & E & _ & Hc & _).
  rewrite E in H. injection H as <- <-. split; [reflexivity|].
  set (L := cwd (w_fs w)) in *.
  assert (Hdir : forall name, swept L name = is_dir_entry name L ->
                   is_dir_entry name (cwd (w_fs w')) = false).
  { intros name Hsw. rewrite Hc. unfold after_clean, is_dir_entry.
    rewrite (lookup_entry_filter (fun n => negb (swept L n))), Hsw.
    unfold is_dir_entry.
    destruct (lookup_entry name L) as [[c|inner]|]; reflexivity. }
  apply clean_build_directories_same.
  - apply Hdir. unfold swept.
    destruct (is_dir_entry "build" L), (is_dir_entry "dist" L); reflexivity.
  - apply Hdir. unfold swept.
    destruct (is_dir_entry "build" L), (is_dir_entry "dist" L); reflexivity.
  - intros name Hin. rewrite Hc in Hin. unfold after_clean in Hin.
    apply in_map_iff in Hin as (e & <- & He). apply filter_In in He as [_ He].
    apply negb_true_iff in He. unfold swept in He.
    now apply orb_false_iff in He as [_ He].
Qed.

Lemma clean_build_directories_twice_witness :
  let w := Scenario.release_world "1.2.3" "1.2.3"
             [("build"%string, Dir []); Scenario.egg_info "1.2.3";
              ("src"%string, Dir [])] [] in
  fst (clean_build_directories w) = Ok tt
  /\ clean_build_directories (snd (clean_build_directories w))
     = (Ok tt, snd (clean_build_directories w)).
Proof.
  intros w. apply (clean_build_directories_twice w). apply surjective_pairing.
Defined.

(** ** main when no version is declared *)

(** When both metadata files exist but neither declares a version, and
    the first answer is yes, [main] takes 0.1.0 as the new version,
    cleans the working directory, rewrites no file, reports that no file
    was updated and returns 1; no command is run. *)
Theorem main_no_declaration
    (w : world) (sc pc answer : string) (rest : list string) :
  files (w_fs w) !! path_join (w_script_dir w) "setup.py" = Some sc ->
  files (w_fs w) !! path_join (w_script_dir w) "pyproject.toml" = Some pc ->
  search_quoted setup_lit sc = None ->
  search_quoted pyproject_lit pc = None ->
  w_stdin w = answer :: rest ->
  Str.lower answer = "y"%string ->
  exists w',
    main w = (Ok 1, w')
    /\ files (w_fs w') = files (w_fs w)
    /\ cwd (w_fs w') = after_clean (cwd (w_fs w))
    /\ In (Input (prompt_confirm None "0.1.0") (Some answer)) (w_log w')
    /\ In (Print "沒有更新任何文件") (w_log w')
    /\ exists evs, w_log w' = w_log w ++ evs /\ Forall (fun e => ~ is_run e) evs.
Proof.
  intros Hs Hp Hns Hnp Hin Hy.
  unfold main, bind at 1, gets.
  unfold bind at 1, path_exists. rewrite Hs.
  unfold bind at 1. rewrite Hp.
  rewrite !bool_decide_eq_true_2 by eauto. cbn [negb orb].
  unfold bind at 1.
  rewrite (get_current_version_run _ _ sc pc w Hs Hp). cbv zeta.
  rewrite Hns, Hnp. cbn [truthy andb].
  unfold bind at 1, print at 1.
  unfold bind at 1, lift. cbn [increment_version].
  unfold bind at 1, print at 1.
  unfold bind at 1, input at 1. simpl w_stdin. rewrite Hin.
  rewrite Hy. rewrite String.eqb_refl. cbn [negb].
  unfold bind at 1, print at 1.
  set (w2 := add_log _ (add_log _ _)).
  destruct (clean_build_directories_run w2)
    as (w3 & Ec & Hf & Hc & Hst & evs & El & Fl).
  unfold bind at 1. rewrite Ec.
  unfold bind at 1.
  rewrite (update_version_in_files_nothing _ _ "0.1.0" sc pc w3 eq_refl);
    [| now rewrite Hf | now rewrite Hf | assumption | assumption].
  unfold bind, print, ret.
  eexists. split; [reflexivity|]. split; [exact Hf|]. split; [exact Hc|].
  assert (Hlog : w_log w3
                 = w_log w ++ [Print (cat ["當前版本: "; fmt None]%string);
                               Print (cat ["新版本: "; "0.1.0"]%string);
                               Input (prompt_confirm None "0.1.0") (Some answer);
                               Print (cat [newline; "清理舊的構建目錄..."]%string)] ++ evs).
  { rewrite El. unfold w2. simpl. now rewrite <- !List.app_assoc. }
  simpl w_log. rewrite Hlog. split; [|split].
  - rewrite !in_app_iff. simpl. tauto.
  - rewrite !in_app_iff. simpl. tauto.
  - eexists. split; [rewrite <- !List.app_assoc; reflexivity|].
    rewrite !Forall_app. repeat split.
    + repeat constructor; easy.
    + eapply List.Forall_impl; [|exact Fl]. now intros [].
    + repeat constructor. easy.
Qed.

Lemma main_no_declaration_witness :
  let w := set_fs {| files := <[Scenario.setup_file := "setup(name='pkg')"]>
                                (<[Scenario.pyproject_file := "[project]"]> ∅);
                     cwd := [("dist"%string, Dir []); ("src"%string, Dir [])] |}
             (Scenario.release_world "1" "1" [] ["Y"]%string) in
  exists w',
    main w = (Ok 1, w')
    /\ files (w_fs w') = files (w_fs w)
    /\ cwd (w_fs w') = after_clean (cwd (w_fs w))
    /\ In (Input (prompt_confirm None "0.1.0") (Some "Y"%string)) (w_log w')
    /\ In (Print "沒有更新任何文件") (w_log w')
    /\ exists evs, w_log w' = w_log w ++ evs /\ Forall (fun e => ~ is_run e) evs.
Proof.
  intros w.
  apply (main_no_declaration w "setup(name='pkg')" "[project]" "Y" []);
    vm_compute; reflexivity.
Defined.

(** ** More on check_egg_info_version *)

Lemma check_egg_dirs_true (nv : string) (egg_dirs : list string) (w w' : world) :
  check_egg_dirs nv egg_dirs w = (Ok true, w') ->
  Forall (passes nv (cwd (w_fs w))) egg_dirs.
Proof.
  induction egg_dirs as [|d rest IH]; [constructor|].
  cbn [check_egg_dirs]. unfold bind at 1, exists_pkg_info.
  destruct (pkg_info_node d (cwd (w_fs w))) as [x|] eqn:E.
  - unfold bind at 1, read_pkg_info. rewrite E.
    destruct x as [content|inner]; [|discriminate].
    destruct (search_version content) as [found|] eqn:Es.
    + destruct (String.eqb_spec found nv) as [->|Hne]; [|discriminate].
      intros H. constructor; [|now apply IH].
      unfold passes. now rewrite E, Es.
    + intros H. constructor; [|now apply IH].
      unfold passes. now rewrite E, Es.
  - intros H. constructor; [|now apply IH].
    unfold passes. now rewrite E.
Qed.


Lemma check_egg_dirs_effects (nv : string) (egg_dirs : list string) :
  forall w r w', check_egg_dirs nv egg_dirs w = (r, w') ->
    match r with
    | Ok true => w' = w
    | Ok false =>
        exists egg_dir found,
          found <> nv
          /\ w' = add_log (Print (msg_egg_mismatch (pkg_info_path egg_dir) found nv)) w
    | Raise e => w' = w
    end.
Proof.
  induction egg_dirs as [|d rest IH]; intros w r w'.
  - now intros [= <- <-].
  - cbn [check_egg_dirs]. unfold bind at 1, exists_pkg_info.
    destruct (pkg_info_node d (cwd (w_fs w))) as [x|] eqn:E; [|apply IH].
    unfold bind at 1, read_pkg_info. rewrite E.
    destruct x as [content|inner]; [|now intros [= <- <-]].
    destruct (search_version content) as [found|]; [|apply IH].
    destruct (String.eqb_spec found nv) as [->|Hne]; [apply IH|].
    cbn [negb]. unfold bind, print, ret. intros [= <- <-]. now exists d, found.
Qed.

(** [check_egg_info_version] only reads: the files, the working
    directory and the typed lines are as before.  It prints nothing when
    it returns [True]; it prints one warning, about a version that
    differs from the expected one, when it returns [False]; and when it
    raises (a PKG-INFO that cannot be read) it has printed nothing. *)
Theorem check_egg_info_version_effects
    (new_version : string) (w : world) (r : result bool) (w' : world) :
  check_egg_info_version new_version w = (r, w') ->
  w_fs w' = w_fs w
  /\ w_stdin w' = w_stdin w
  /\ match r with
     | Ok true => w' = w
     | Ok false =>
         exists egg_dir found,
           found <> new_version
           /\ w' = add_log
                     (Print (msg_egg_mismatch (pkg_info_path egg_dir) found new_version)) w
     | Raise e => w' = w
     end.
Proof.
  unfold check_egg_info_version, bind, listdir. intros H.
  apply check_egg_dirs_effects in H.
  destruct r as [[|]|e].
  - subst w'. now repeat split.
  - destruct H as (d & found & Hne & ->). repeat split. now exists d, found.
  - subst w'. now repeat split.
Qed.

Lemma check_egg_info_version_effects_witness :
  let w := Scenario.release_world "1.2.4" "1.2.4"
             [("odd.egg-info"%string, Dir [("PKG-INFO"%string, Dir [])])] [] in
  check_egg_info_version "1.2.4" w = (Raise IsADirectoryError, w)
  /\ w_fs w = w_fs w.
Proof.
  intros w.
  assert (H : check_egg_info_version "1.2.4" w = (Raise IsADirectoryError, w))
    by (vm_compute; reflexivity).
  split; [exact H | exact (proj1 (check_egg_info_version_effects _ _ _ _ H))].
Defined.

Lemma span_all (f : ascii -> bool) (s : string) :
  Str.all_chars f (fst (Str.span f s)) = true.
Proof.
  induction s as [|c t IH]; [reflexivity|]. simpl.
  destruct (f c) eqn:Hc; [|reflexivity].
  destruct (Str.span f t) as [a b]. simpl in *. now rewrite Hc, IH.
Qed.

(** The version read from a metadata file is made of digits and dots. *)
Lemma search_version_chars (content found : string) :
  search_version content = Some found ->
  Str.truthy found = true /\ Str.all_chars version_char found = true.
Proof.
  assert (Hm : forall s, match_version s = Some found ->
                 Str.truthy found = true /\ Str.all_chars version_char found = true).
  { intros s. unfold match_version.
    destruct (Str.strip_prefix "Version: " s) as [r|]; [|discriminate].
    pose proof (span_all version_char r) as Ha.
    destruct (fst (Str.span version_char r)) as [|c g]; [discriminate|].
    intros [= <-]. now split. }
  induction content as [|c t IH]; cbn [search_version].
  - destruct (match_version EmptyString) eqn:E; [|discriminate].
    intros [= ->]. exact (Hm _ E).
  - destruct (match_version (String c t)) eqn:E.
    + intros [= ->]. exact (Hm _ E).
    + exact IH.
Qed.

(** The pattern of the check takes digits and dots only.  So when the
    expected version has any other character (a suffix such as rc1),
    every metadata file that states a version counts as a mismatch: if
    the check still returns [True], no listed metadata file states a
    version at all. *)
Theorem check_egg_info_version_letters
    (new_version : string) (w w' : world) :
  Str.all_chars version_char new_version = false ->
  check_egg_info_version new_version w = (Ok true, w') ->
  forall egg_dir content,
    In egg_dir (List.filter (Str.ends_with ".egg-info") (List.map fst (cwd (w_fs w)))) ->
    pkg_info_node egg_dir (cwd (w_fs w)) = Some (File content) ->
    search_version content = None.
Proof.
  intros Hnv Hcheck egg_dir content Hin Hnode.
  pose proof (check_egg_dirs_true _ _ _ _ Hcheck) as Hall.
  rewrite List.Forall_forall in Hall. specialize (Hall egg_dir Hin).
  unfold passes in Hall. rewrite Hnode in Hall.
  destruct (search_version content) as [found|] eqn:E; [|reflexivity].
  apply search_version_chars in E as [_ E]. subst found. congruence.
Qed.

Lemma check_egg_info_version_letters_witness :
  let w := Scenario.release_world "1.0rc1" "1.0rc1"
             [("pkg.egg-info"%string, Dir [("PKG-INFO"%string, File "Name: pkg")])] [] in
  check_egg_info_version "1.0rc1" w = (Ok true, w)
  /\ search_version "Name: pkg" = None.
Proof.
  intros w.
  assert (H : check_egg_info_version "1.0rc1" w = (Ok true, w))
    by (vm_compute; reflexivity).
  split; [exact H|].
  apply (check_egg_info_version_letters "1.0rc1" w w eq_refl H "pkg.egg-info" "Name: pkg").
  - vm_compute. left. reflexivity.
  - vm_compute. reflexivity.
Defined.

Example check_release_candidate :
  fst (check_egg_info_version "1.0rc1"
         (Scenario.release_world "1.0rc1" "1.0rc1" [Scenario.egg_info "1.0rc1"] []))
  = Ok false.
Proof. vm_compute. reflexivity. Qed.

(** ** More on build_package and upload_to_pypi *)


(** When the command cannot be started, with an exception other than
    [CalledProcessError], both functions let it through: nothing is
    printed, and the log holds the attempt alone. *)
Theorem external_tools_not_started (w : world) (e : exn_class) (f : fs) :
  is_CalledProcessError e = false ->
  (w_tools w (build_argv (w_executable w)) (w_fs w) = (NotStarted e, f) ->
   exists w',
     build_package w = (Raise e, w')
     /\ w_log w' = w_log w ++ [Run (build_argv (w_executable w)) (NotStarted e)])
  /\ (forall test,
        w_tools w (upload_argv test) (w_fs w) = (NotStarted e, f) ->
        exists w',
          upload_to_pypi test w = (Raise e, w')
          /\ w_log w' = w_log w ++ [Run (upload_argv test) (NotStarted e)]).
Proof.
  intros He. split.
  - intros H. unfold build_package, try_except, bind, subprocess_run, gets.
    rewrite H, He. eexists. split; reflexivity.
  - intros test H. rewrite (upload_to_pypi_not_started test w e f H He).
    unfold after_run. rewrite H. eexists. split; reflexivity.
Qed.

Lemma external_tools_not_started_witness :
  let w := Scenario.world_with Scenario.no_twine "1.2.4" "1.2.4" [] [] in
  exists w',
    upload_to_pypi true w = (Raise FileNotFoundError, w')
    /\ w_log w' = w_log w ++ [Run (upload_argv true) (NotStarted FileNotFoundError)].
Proof.
  intros w.
  apply (proj2 (external_tools_not_started w FileNotFoundError (w_fs w) eq_refl) true).
  reflexivity.
Defined.


(** ** The start of the plug-in module *)

Section StartupFacts.

Import Startup.

Lemma existsb_eqb_In (x : string) (l : list string) :
  existsb (String.eqb x) l = true <-> In x l.
Proof.
  rewrite existsb_exists. split.
  - intros (y & Hy & He). apply String.eqb_eq in He. now subst y.
  - intros H. exists x. split; [exact H | apply String.eqb_refl].
Qed.

(** After the first lines of the module the plug-in directory is on
    [sys.path]; the entries that were there keep their places behind it;
    a directory that was on the path already is not added a second time,
    so running the lines again changes nothing. *)
Theorem add_plugin_dir_once (plugin_dir : string) (sys_path : list string) :
  In plugin_dir (add_plugin_dir plugin_dir sys_path)
  /\ add_plugin_dir plugin_dir (add_plugin_dir plugin_dir sys_path)
     = add_plugin_dir plugin_dir sys_path
  /\ ((In plugin_dir sys_path /\ add_plugin_dir plugin_dir sys_path = sys_path)
      \/ (~ In plugin_dir sys_path
          /\ add_plugin_dir plugin_dir sys_path = plugin_dir :: sys_path)).
Proof.
  unfold add_plugin_dir.
  destruct (existsb (String.eqb plugin_dir) sys_path) eqn:E.
  - assert (Hin : In plugin_dir sys_path) by now apply existsb_eqb_In.
    rewrite E. split; [exact Hin|]. split; [reflexivity|]. now left.
  - assert (Hout : ~ In plugin_dir sys_path).
    { intros Hin. apply existsb_eqb_In in Hin. congruence. }
    cbn [existsb]. rewrite String.eqb_refl. cbn [orb].
    split; [now left|]. split; [reflexivity|]. now right.
Qed.

Variable host : Type.
Variable is_ImportError : exn_class -> bool.
Variable write_error : Loader.event -> option Loader.raised.

(** The two imports and the entry point together.  When the module is
    imported with a function bound, nothing was printed, and the function
    is the one of the absolute import when that succeeded, whatever the
    relative import would give.  When no function is bound, both imports
    raised [ImportError], the second error could be formatted, the
    message with its text was printed, and [load] returns without a
    change and without a line.  An exception leaves the module in three
    cases only, and nothing is printed then: an import raised it and it
    is not an [ImportError]; or both imports raised [ImportError] and
    formatting the second error raised it; or printing the message
    raised it. *)
Theorem startup_outcomes
    (absolute relative : imported (Loader.plugin host)) (h : host) :
  match resolve (Loader.plugin host) is_ImportError write_error absolute relative with
  | (Bound (Some f), evs) =>
      evs = []
      /\ (absolute = Found f
          \/ exists e, absolute = Failed e
                       /\ is_ImportError (Loader.exc_class e) = true
                       /\ relative = Found f)
  | (Bound None, evs) =>
      exists e e' text,
        absolute = Failed e /\ relative = Failed e'
        /\ is_ImportError (Loader.exc_class e) = true
        /\ is_ImportError (Loader.exc_class e') = true
        /\ Loader.exc_str e' = Loader.Text text
        /\ write_error (Loader.Print (msg_import_failed text)) = None
        /\ evs = [Loader.Print (msg_import_failed text)]
        /\ Loader.load host write_error None h = (Loader.Returned, h, [])
  | (Escaped x, evs) =>
      evs = []
      /\ ((absolute = Failed x /\ is_ImportError (Loader.exc_class x) = false)
          \/ exists e, absolute = Failed e
                       /\ is_ImportError (Loader.exc_class e) = true
                       /\ ((relative = Failed x
                            /\ is_ImportError (Loader.exc_class x) = false)
                           \/ exists e',
                                relative = Failed e'
                                /\ is_ImportError (Loader.exc_class e') = true
                                /\ (Loader.exc_str e' = Loader.StrRaises x
                                    \/ exists text,
                                         Loader.exc_str e' = Loader.Text text
                                         /\ write_error
                                              (Loader.Print (msg_import_failed text))
                                            = Some x)))
  end.
Proof.
  unfold resolve.
  destruct absolute as [f|e]; [now split; [|left]|].
  destruct (is_ImportError (Loader.exc_class e)) eqn:He.
  - destruct relative as [f|e'].
    + split; [reflexivity|]. right. now exists e.
    + destruct (is_ImportError (Loader.exc_class e')) eqn:He'.
      * destruct (Loader.exc_str e') as [text|x] eqn:Hs.
        -- cbv zeta.
           destruct (write_error (Loader.Print (msg_import_failed text))) as [x|] eqn:Hw.
           ++ split; [reflexivity|]. right. exists e. split; [reflexivity|].
              split; [exact He|]. right. exists e'. split; [reflexivity|].
              split; [exact He'|]. right. now exists text.
           ++ exists e, e', text. now repeat split.
        -- split; [reflexivity|]. right. exists e. split; [reflexivity|].
           split; [exact He|]. right. exists e'. split; [reflexivity|].
           split; [exact He'|]. now left.
      * split; [reflexivity|]. right. exists e. split; [reflexivity|].
        split; [exact He|]. now left.
  - split; [reflexivity|]. now left.
Qed.

(** A second error whose [__str__] raises: the module does not import,
    although both imports raised [ImportError]. *)
Example startup_str_raises :
  let inner := Loader.Exc (OtherException "RuntimeError") (Loader.Text "no text") in
  let e := Loader.Exc (OtherException "ImportError") (Loader.Text "no module") in
  let e' := Loader.Exc (OtherException "ImportError") (Loader.StrRaises inner) in
  resolve (Loader.plugin unit) (fun _ => true) (fun _ => None) (Failed e) (Failed e')
  = (Escaped inner, []).
Proof. reflexivity. Qed.

End StartupFacts.

(** ** What exit status 0 means *)

Lemma leaves_bind {A B : Type} (Q : A -> list event -> Prop) (m : M B) (k : B -> M A) :
  (forall b w1, (exists w, m w = (Ok b, w1)) -> forall a w', k b w1 = (Ok a, w') ->
                Q a (w_log w')) ->
  leaves Q (bind m k).
Proof.
  intros Hk w a w' E. unfold bind in E.
  destruct (m w) as [[b|e] w1] eqn:Em; [|discriminate].
  exact (Hk b w1 (ex_intro _ w Em) a w' E).
Qed.

Lemma leaves_then {A B : Type} (Q : A -> list event -> Prop) (m : M B) (k : B -> M A) :
  (forall b, leaves Q (k b)) -> leaves Q (bind m k).
Proof. intros Hk. apply leaves_bind. intros b w1 _ a w'. apply Hk. Qed.

Lemma leaves_failure (Q : list event -> Prop) :
  leaves (fun code log => code = 0 -> Q log) (ret 1).
Proof. intros w a w' [= <- <-]. discriminate. Qed.

Lemma upload_to_pypi_true (test : bool) (w w1 : world) :
  upload_to_pypi test w = (Ok true, w1) ->
  w_log w1 = w_log w ++ [Run (upload_argv test) (Exited 0)].
Proof.
  unfold upload_to_pypi, try_except, bind, subprocess_run, print, ret.
  destruct (w_tools w (upload_argv test) (w_fs w)) as [p f].
  destruct p as [code|e].
  - destruct code; cbn [is_CalledProcessError]; intros E; try discriminate.
    now injection E as <-.
  - destruct (is_CalledProcessError e); intros E; discriminate.
Qed.

(** When [main] returns 0, either the first question was declined and
    the cancellation is the last line, or the last command run was the
    upload, it exited with status 0, and the line of success is the last
    line.  A failed build, a failed upload, a declined mismatch and
    missing files never give 0. *)
Theorem main_success (w w' : world) :
  main w = (Ok 0, w') -> success_log (w_log w').
Proof.
  intros E.
  assert (H : leaves (fun code log => code = 0 -> success_log log) main);
    [|exact (H _ _ _ E eq_refl)].
  clear. unfold main.
  do 3 (apply leaves_then; intros ?).
  match goal with |- leaves _ (if ?b then _ else _) => destruct b end.
  { apply leaves_then; intros _. apply leaves_failure. }
  apply leaves_then; intros current_version. apply leaves_then; intros _.
  apply leaves_then; intros new_version. apply leaves_then; intros _.
  apply leaves_bind. intros answer w1 [w0 Ein] code w' E.
  unfold input in Ein. destruct (w_stdin w0) as [|line rest]; [discriminate|].
  injection Ein as -> <-.
  destruct (String.eqb (Str.lower answer) "y") eqn:Hy; cbn [negb] in E.
  2: { unfold bind, print, ret in E. injection E as <- <-. intros _. left.
       exists (w_log w0), current_version, new_version, answer. split.
       - simpl. now rewrite <- List.app_assoc.
       - now apply String.eqb_neq. }
  revert code w' E. generalize (add_log (Input (prompt_confirm current_version new_version)
                                           (Some answer)) (set_stdin rest w0)).
  change (leaves (fun code log => code = 0 -> success_log log)
            (print (cat [newline; "清理舊的構建目錄..."]%string) >>
             clean_build_directories >>
             let* updated_files :=
               update_version_in_files
                 (path_join b "setup.py") (path_join b "pyproject.toml") new_version in
             match updated_files with
             | [] => print "沒有更新任何文件" >> ret 1
             | _ :: _ =>
                 print (cat ["已更新版本號至 "; new_version; " 在以下檔案中:"]%string) >>
                 for_each updated_files (fun file => print (cat ["  - "; file]%string)) >>
                 let* answer := input prompt_test_pypi in
                 let use_test_pypi := String.eqb (Str.lower answer) "y" in
                 print (cat [newline; "開始打包..."]%string) >>
                 publish new_version use_test_pypi
             end)).
  do 2 (apply leaves_then; intros _). apply leaves_then; intros updated_files.
  destruct updated_files as [|file files'].
  { apply leaves_then; intros _. apply leaves_failure. }
  do 2 (apply leaves_then; intros _). apply leaves_then; intros answer'.
  cbv zeta. apply leaves_then; intros _.
  unfold publish. apply leaves_then; intros built.
  destruct built; cbn [negb]; [|apply leaves_failure].
  unfold after_build. apply leaves_then; intros consistent.
  apply leaves_then; intros proceed.
  destruct proceed; cbn [negb]; [|apply leaves_failure].
  unfold finish. apply leaves_then; intros _.
  apply leaves_bind. intros uploaded w3 [w2 Eup] code w' E.
  destruct uploaded; cbn [negb] in E.
  - unfold bind, print, ret in E. injection E as <- <-. intros _. right.
    exists (w_log w2), new_version, (String.eqb (Str.lower answer') "y").
    simpl. rewrite (upload_to_pypi_true _ _ _ Eup). now rewrite <- List.app_assoc.
  - injection E as <- <-. discriminate.
Qed.

Lemma main_success_witness :
  let w := Scenario.release_world "1.2.3" "1.2.3" [] ["y"; "n"]%string in
  success_log (w_log (snd (main w))).
Proof.
  intros w. apply (main_success w (snd (main w))).
  vm_compute. reflexivity.
Defined.
